(** * WuXing-Agent: the status-report skill

    A shallow embedding of
    [skills/generate_wuxing_agent_status_report/scripts/index.py]:
    the function [handler] (lines 3-74) and the script body under
    [if __name__ == '__main__'] (lines 76-90), with the properties of
    the report that the specification states.

    Conventions.
    - A Python [str] is a Rocq [string] holding its UTF-8 encoding, so
      the literals of the source appear here as they are written there.
    - A Python [int] is a [Z]; [//] on a positive divisor is [Z.div].
    - Raising is explicit: fallible steps live in the [result] monad.
    - What the script reads from the host (platform, the [node] probe,
      the memory reading, the clock, whether psutil can be imported) is
      a field of the record [world]. *)

From Stdlib Require Import ZArith List String Ascii DecimalString Bool Lia.
From Stdlib Require Import Floats.SpecFloat.
Import ListNotations.
Local Open Scope string_scope.
#[local] Set Warnings "-register-all".

(** ** Text *)

Module Text.

(** The line feed written [\n] in the source. *)
Definition nl : string := String (ascii_of_nat 10) EmptyString.

(** [str(n)] for an [int]. *)
Definition str_int (z : Z) : string := NilZero.string_of_int (Z.to_int z).

(** The characters of a text: each item is the UTF-8 encoding of one
    code point, a lead byte followed by its continuation bytes (those
    of the form 10xxxxxx). The length of the text is fuel enough
    ([chars_fuel_is_enough]). *)
Definition is_continuation (c : ascii) : bool :=
  let n := nat_of_ascii c in (128 <=? n)%nat && (n <? 192)%nat.

Fixpoint take_continuation (s : string) : string * string :=
  match s with
  | String c rest =>
      if is_continuation c
      then let '(k, r) := take_continuation rest in (String c k, r)
      else (EmptyString, s)
  | EmptyString => (EmptyString, EmptyString)
  end.

Fixpoint chars_fuel (fuel : nat) (s : string) : list string :=
  match fuel, s with
  | S fuel, String c rest =>
      let '(k, r) := take_continuation rest in
      String c k :: chars_fuel fuel r
  | _, _ => []
  end.

Definition chars (s : string) : list string := chars_fuel (String.length s) s.

Definition join (l : list string) : string := String.concat EmptyString l.

(** The characters [str.isspace] accepts, which are the ones
    [str.strip()] removes: U+0009-000D, U+001C-0020, U+0085, U+00A0,
    U+1680, U+2000-200A, U+2028, U+2029, U+202F, U+205F, U+3000. *)
Definition is_space (ch : string) : bool :=
  match map nat_of_ascii (list_ascii_of_string ch) with
  | [b] => ((9 <=? b) && (b <=? 13) || (28 <=? b) && (b <=? 32))%nat
  | [194; b] => ((b =? 133) || (b =? 160))%nat
  | [225; 154; 128] => true
  | [226; 128; b] =>
      ((128 <=? b) && (b <=? 138) || (b =? 168) || (b =? 169) || (b =? 175))%nat
  | [226; 129; 159] => true
  | [227; 128; 128] => true
  | _ => false
  end.

Fixpoint drop_spaces (l : list string) : list string :=
  match l with
  | ch :: rest => if is_space ch then drop_spaces rest else l
  | [] => []
  end.

(** [s.strip()] *)
Definition strip (s : string) : string :=
  join (rev (drop_spaces (rev (drop_spaces (chars s))))).

(** A text of white space only; the empty text is one. *)
Definition blank (s : string) : bool := forallb is_space (chars s).

(** [s.lower()], on the ASCII letters: the names [platform.system()]
    returns (Linux, Windows, Darwin, Java) are ASCII. *)
Definition lower_ascii (c : ascii) : ascii :=
  let n := nat_of_ascii c in
  if ((65 <=? n) && (n <=? 90))%nat then ascii_of_nat (n + 32) else c.

Fixpoint lower (s : string) : string :=
  match s with
  | String c rest => String (lower_ascii c) (lower rest)
  | EmptyString => EmptyString
  end.

(** [s.split('\n')]: the lines of a text. *)
Fixpoint lines_acc (cur : string) (s : string) : list string :=
  match s with
  | String c rest =>
      if (nat_of_ascii c =? 10)%nat
      then cur :: lines_acc EmptyString rest
      else lines_acc (cur ++ String c EmptyString) rest
  | EmptyString => [cur]
  end.

Definition lines (s : string) : list string := lines_acc EmptyString s.

(** A text without a line feed. *)
Fixpoint one_line (s : string) : bool :=
  match s with
  | String c rest => negb (nat_of_ascii c =? 10)%nat && one_line rest
  | EmptyString => true
  end.

End Text.

Import Text.

(** ** Exceptions *)

(** The exception classes the script can meet, with Python's class
    hierarchy: [base c] is the class [c] derives from. *)
Inductive exn_class : Type :=
| BaseException | Exception
| OSError | FileNotFoundError | PermissionError | TimeoutError
| SubprocessError | CalledProcessError | TimeoutExpired
| AttributeError | TypeError | ValueError | UnicodeError
| UnicodeDecodeError | UnicodeEncodeError | JSONDecodeError
| RuntimeError | RecursionError
| ImportError | ModuleNotFoundError.

Definition base (c : exn_class) : option exn_class :=
  match c with
  | BaseException => None
  | Exception => Some BaseException
  | OSError | SubprocessError | AttributeError | TypeError
  | ValueError | RuntimeError | ImportError => Some Exception
  | FileNotFoundError | PermissionError | TimeoutError => Some OSError
  | CalledProcessError | TimeoutExpired => Some SubprocessError
  | UnicodeError | JSONDecodeError => Some ValueError
  | UnicodeDecodeError | UnicodeEncodeError => Some UnicodeError
  | RecursionError => Some RuntimeError
  | ModuleNotFoundError => Some ImportError
  end.

Definition exn_class_eqb (c d : exn_class) : bool :=
  match c, d with
  | BaseException, BaseException | Exception, Exception
  | OSError, OSError | FileNotFoundError, FileNotFoundError
  | PermissionError, PermissionError | TimeoutError, TimeoutError
  | SubprocessError, SubprocessError
  | CalledProcessError, CalledProcessError
  | TimeoutExpired, TimeoutExpired | AttributeError, AttributeError
  | TypeError, TypeError | ValueError, ValueError
  | UnicodeError, UnicodeError | UnicodeDecodeError, UnicodeDecodeError
  | UnicodeEncodeError, UnicodeEncodeError
  | RuntimeError, RuntimeError | RecursionError, RecursionError
  | JSONDecodeError, JSONDecodeError | ImportError, ImportError
  | ModuleNotFoundError, ModuleNotFoundError => true
  | _, _ => false
  end.

(** [issubclass(c, d)]: climb from [c]. The hierarchy is four deep
    ([issubclass_fuel_is_enough]). *)
Fixpoint issubclass_fuel (fuel : nat) (c d : exn_class) : bool :=
  exn_class_eqb c d ||
  match fuel, base c with
  | S fuel, Some b => issubclass_fuel fuel b d
  | _, _ => false
  end.

Definition issubclass : exn_class -> exn_class -> bool := issubclass_fuel 4.

(** A raised exception: its class and [str(e)]. *)
Record exn : Type := { exn_type : exn_class; exn_text : string }.

Inductive result (A : Type) : Type :=
| Return (a : A)
| Raise (e : exn).
Arguments Return {A} a.
Arguments Raise {A} e.

Definition result_bind {A B : Type} (m : result A) (k : A -> result B) : result B :=
  match m with
  | Return a => k a
  | Raise e => Raise e
  end.

(** [try: body  except classes: fallback] *)
Definition result_try {A : Type}
    (body : result A) (classes : list exn_class) (fallback : A) : result A :=
  match body with
  | Return a => Return a
  | Raise e =>
      if existsb (issubclass (exn_type e)) classes
      then Return fallback
      else Raise e
  end.

(** ** Python objects *)

(** The objects [json.loads] builds. A [dict] keeps its entries in
    insertion order. *)
Inductive pyval : Type :=
| PyNone
| PyBool (b : bool)
| PyInt (z : Z)
| PyFloat (f : spec_float)
| PyStr (s : string)
| PyList (items : list pyval)
| PyDict (entries : list (string * pyval)).

Definition type_name (v : pyval) : string :=
  match v with
  | PyNone => "NoneType"
  | PyBool _ => "bool"
  | PyInt _ => "int"
  | PyFloat _ => "float"
  | PyStr _ => "str"
  | PyList _ => "list"
  | PyDict _ => "dict"
  end.

Fixpoint lookup (key : string) (entries : list (string * pyval)) : option pyval :=
  match entries with
  | (k, v) :: rest => if String.eqb k key then Some v else lookup key rest
  | [] => None
  end.

(** [obj.get(key, default)]: only a [dict] has the method, and the
    default is evaluated once the method is found. *)
Definition py_get (obj : pyval) (key : string) (default : result pyval)
  : result pyval :=
  match obj with
  | PyDict entries =>
      result_bind default (fun d =>
        Return (match lookup key entries with Some v => v | None => d end))
  | _ =>
      Raise {| exn_type := AttributeError;
               exn_text := "'" ++ type_name obj ++ "' object has no attribute 'get'" |}
  end.

(** The truth value of an object, as [if obj:] tests it. *)
Definition py_truthy (v : pyval) : bool :=
  match v with
  | PyNone => false
  | PyBool b => b
  | PyInt z => negb (z =? 0)%Z
  | PyFloat (S754_zero _) => false
  | PyFloat _ => true
  | PyStr s => negb (String.eqb s EmptyString)
  | PyList items => match items with [] => false | _ => true end
  | PyDict entries => match entries with [] => false | _ => true end
  end.

(** The items [for x in obj:] visits. *)
Definition py_iter (v : pyval) : result (list pyval) :=
  match v with
  | PyList items => Return items
  | PyDict entries => Return (map (fun kv => PyStr (fst kv)) entries)
  | PyStr s => Return (map PyStr (chars s))
  | _ =>
      Raise {| exn_type := TypeError;
               exn_text := "'" ++ type_name v ++ "' object is not iterable" |}
  end.

(** The number of objects in a tree. *)
Fixpoint pyval_size (v : pyval) : nat :=
  match v with
  | PyList items => S (list_sum (map pyval_size items))
  | PyDict entries =>
      S (list_sum (map (fun kv => let '(_, x) := kv in pyval_size x) entries))
  | _ => 1
  end.

(** ** The host *)

(** [psutil.virtual_memory()]: the fields the script reads, in bytes. *)
Record svmem : Type := { total : Z; available : Z; used : Z }.

(** What [subprocess.run] returns. *)
Record CompletedProcess : Type := { returncode : Z; stdout : string }.

(** The interpreter's conversions the script relies on and this
    development leaves to Python: [float(literal)], [repr] of a
    [float] and [repr] of a [str]; and its two limits that
    [json.loads] can meet: [sys.get_int_max_str_digits()], 0 when
    there is none, and the number of arrays and objects the decoder
    can open inside one another before the interpreter's recursion
    check stops it. *)
Record interpreter : Type := {
  float_of_literal : string -> spec_float;
  repr_float : spec_float -> string;
  repr_str : string -> string;
  int_max_str_digits : N;
  json_max_nesting : nat
}.

Record world : Type := {
  python : interpreter;
  (** whether [import psutil] finds the package *)
  psutil_importable : bool;
  (** [platform.system()] and [platform.architecture()] *)
  platform_system : string;
  platform_architecture : string * string;
  (** the outcome of
      [subprocess.run(['node', '-v'], capture_output=True, text=True, timeout=5)] *)
  subprocess_run_node_v : result CompletedProcess;
  (** [psutil.virtual_memory()] *)
  psutil_virtual_memory : svmem;
  (** [datetime.datetime.now().strftime('%Y-%m-%d %A')] *)
  now_strftime : string
}.

Definition comma_join (l : list string) : string := String.concat ", " l.

(** [repr(v)] *)
Fixpoint py_repr (py : interpreter) (v : pyval) : string :=
  match v with
  | PyNone => "None"
  | PyBool true => "True"
  | PyBool false => "False"
  | PyInt z => str_int z
  | PyFloat f => repr_float py f
  | PyStr s => repr_str py s
  | PyList items => "[" ++ comma_join (map (py_repr py) items) ++ "]"
  | PyDict entries =>
      "{" ++ comma_join
               (map (fun kv => let '(k, x) := kv in
                               repr_str py k ++ ": " ++ py_repr py x) entries)
          ++ "}"
  end.

(** What an f-string writes for [{v}]: a [str] as it is, any other
    object through its [repr]. *)
Definition py_format (py : interpreter) (v : pyval) : string :=
  match v with
  | PyStr s => s
  | _ => py_repr py v
  end.

(** ** The interpreter, as [handler] uses it *)

(** The operations [handler] performs on objects, over a type [V] of
    objects and a monad [M] of computations. [handler] is written once
    against this interface. It is read over immutable objects
    ([pyval], in [result]) for what it returns, and over a store of
    mutable objects (module [Heap]) for what it does to its input. *)
Class Python (M : Type -> Type) (V : Type) : Type := {
  ret : forall {A : Type}, A -> M A;
  bind : forall {A B : Type}, M A -> (A -> M B) -> M B;
  (** a call into the host, which returns or raises *)
  host : forall {A : Type}, result A -> M A;
  (** [try: body  except classes: fallback] *)
  try_except : forall {A : Type}, M A -> list exn_class -> A -> M A;
  (** the display [[]] *)
  empty_list : M V;
  (** [obj.get(key, default)] *)
  get : V -> string -> M V -> M V;
  (** [if obj:] *)
  truthy : V -> M bool;
  (** the items [for x in obj:] visits *)
  iter : V -> M (list V);
  (** [{obj}] in an f-string *)
  format : interpreter -> V -> M string
}.

Notation "x <- m ;; k" := (bind m (fun x => k))
  (at level 61, m at next level, right associativity).

(** [for x in items: s = body(s, x)] *)
Fixpoint for_each {M : Type -> Type} {V : Type} `{Python M V} {S A : Type}
    (items : list A) (body : S -> A -> M S) (s : S) : M S :=
  match items with
  | [] => ret s
  | x :: rest => s' <- body s x ;; for_each rest body s'
  end.

#[export] Instance tree_python : Python result pyval := {|
  ret := @Return;
  bind := @result_bind;
  host := fun A r => r;
  try_except := @result_try;
  empty_list := Return (PyList []);
  get := py_get;
  truthy := fun v => Return (py_truthy v);
  iter := py_iter;
  format := fun py v => Return (py_format py v)
|}.

Section Handler.

Context {M : Type -> Type} {V : Type} `{Python M V}.

Variable w : world.

(** [handler(args)], lines 3-74. *)
Definition handler (args : V) : M string :=
  current_workspace_files <- get args "current_workspace_files" empty_list ;;
  pending_tasks <- get args "pending_tasks" empty_list ;;

  let system_platform :=
    lower (platform_system w) ++ " " ++ fst (platform_architecture w) in

  node_version <-
    try_except
      (p <- host (subprocess_run_node_v w) ;; ret (strip (stdout p)))
      [CalledProcessError; FileNotFoundError; TimeoutError]
      "未安装" ;;

  let vm := psutil_virtual_memory w in
  let used_mb := (used vm / (1024 * 1024))%Z in
  let total_mb := (total vm / (1024 * 1024))%Z in
  let free_mb := (available vm / (1024 * 1024))%Z in
  let memory_status :=
    "已用" ++ str_int used_mb ++ "MB / 总" ++ str_int total_mb
           ++ "MB (剩余" ++ str_int free_mb ++ "MB)" in

  let current_time := now_strftime w in

  let report := "# 🤖 WuXing-Agent 自我状态报告" ++ nl ++ nl in
  let report := report ++ "## 📊 实时运行环境" ++ nl in
  let report := report ++ "- **系统平台**: " ++ system_platform ++ nl in
  let report := report ++ "- **Node.js版本**: " ++ node_version ++ nl in
  let report := report ++ "- **内存状态**: " ++ memory_status ++ nl in
  let report := report ++ "- **当前时间**: " ++ current_time ++ nl ++ nl in

  let report := report ++ "## 🛠️ 核心能力" ++ nl in
  let report := report ++ "作为具备五行自进化能力的编程专家，我可以：" ++ nl in
  let report := report ++ "1. **文件操作**: 读取项目文件、写入安全隔离的workspace目录" ++ nl in
  let report := report ++ "2. **代码执行**: 运行Node.js代码并提供测试验证" ++ nl in
  let report := report ++ "3. **技能内化**: 将通过测试的代码转化为永久技能卡" ++ nl in
  let report := report ++ "4. **依赖管理**: 按需安装npm包" ++ nl in
  let report := report ++ "5. **外部协作**: 调用外部专家代理（codex/claude）" ++ nl ++ nl in

  let report := report ++ "## 📋 标准工作流" ++ nl in
  let report := report ++ "```mermaid" ++ nl in
  let report := report ++ "graph LR" ++ nl in
  let report := report ++ "A[探路<br>list_dir/read_file] --> B[编码<br>write_file]" ++ nl in
  let report := report ++ "B --> C[验证<br>test_runner]" ++ nl in
  let report := report ++ "C -->|失败| B" ++ nl in
  let report := report ++ "C -->|成功| D[内化<br>incorporate_skill]" ++ nl in
  let report := report ++ "```" ++ nl ++ nl in

  let report := report ++ "## 📂 当前工作区文件" ++ nl in
  listed <- truthy current_workspace_files ;;
  report <-
    (if listed : bool then
       items <- iter current_workspace_files ;;
       for_each items
         (fun report file =>
            text <- format (python w) file ;;
            ret (report ++ "- `" ++ text ++ "`" ++ nl))
         report
     else
       ret (report ++ "- 无" ++ nl)) ;;
  let report := report ++ nl in

  let report := report ++ "## 🧠 历史经验库" ++ nl in
  let report := report ++ "1. 当无法直接获取特定版本发布信息时，应提供权威官方渠道作为替代方案" ++ nl in
  let report := report ++ "2. 当需完成编程全生命周期任务时，应遵循探路→编码→验证→内化闭环" ++ nl in
  let report := report ++ "3. 当Node.js项目启用ES Module时，应遵循对应语法、路径处理及配置规则" ++ nl in
  let report := report ++ "4. 当代理配置与工具运行逻辑不匹配时，应对齐标准模式并补充必要配置项" ++ nl ++ nl in

  let report := report ++ "## 🎯 待办事项" ++ nl in
  pending <- truthy pending_tasks ;;
  report <-
    (if pending : bool then
       items <- iter pending_tasks ;;
       for_each items
         (fun report task =>
            text <- format (python w) task ;;
            ret (report ++ "- " ++ text ++ nl))
         report
     else
       ret (report ++ "- 无" ++ nl)) ;;

  let report := report ++ nl ++ "---" ++ nl ++ "随时可以向我提出编程需求" in

  ret report.

End Handler.

(** ** [json.loads] *)

(** The decoder of Python's [json] module, as the script calls it (no
    options): the JSON grammar, with the three extra literals [NaN],
    [Infinity] and [-Infinity] the module accepts. It raises
    [JSONDecodeError] on a text outside this grammar, [ValueError] on
    an integer with more digits than the interpreter converts, and
    [RecursionError] on arrays and objects nested deeper than the
    interpreter lets it go; the first of these it meets, reading from
    left to right, is the one raised. *)
Module Json.

(** What reading a value gives: the value and the rest of the text,
    or the class of the exception raised. *)
Inductive scanned : Type :=
| Read (v : pyval) (rest : string)
| Stop (c : exn_class).

(** What [json.loads] gives. *)
Inductive decoded : Type :=
| Value (v : pyval)
| Fails (c : exn_class).

Definition code (c : ascii) : N := N_of_ascii c.

Definition is_ws (c : ascii) : bool :=
  ((code c =? 32) || (code c =? 9) || (code c =? 10) || (code c =? 13))%N.

Fixpoint skip_ws (s : string) : string :=
  match s with
  | String c rest => if is_ws c then skip_ws rest else s
  | EmptyString => EmptyString
  end.

Definition is_digit (c : ascii) : bool :=
  ((48 <=? code c) && (code c <=? 57))%N.

Fixpoint take_digits (s : string) : string * string :=
  match s with
  | String c rest =>
      if is_digit c
      then let '(d, r) := take_digits rest in (String c d, r)
      else (EmptyString, s)
  | EmptyString => (EmptyString, EmptyString)
  end.

(** [expect lit s]: [s] without its prefix [lit], when it has it. *)
Fixpoint expect (lit s : string) : option string :=
  match lit, s with
  | EmptyString, _ => Some s
  | String a l, String b r => if Ascii.eqb a b then expect l r else None
  | String _ _, EmptyString => None
  end.

Definition is_empty (s : string) : bool :=
  match s with EmptyString => true | String _ _ => false end.

(** [int(digits)] for a run of decimal digits. *)
Definition digits_value (ds : string) : Z :=
  fold_left (fun acc c => (10 * acc + Z.of_N (code c - 48))%Z)
            (list_ascii_of_string ds) 0%Z.

(** [int(digits)] refuses a run of more than [max_digits] digits, when
    there is such a limit (it is not 0); runs of 640 digits or fewer
    are never counted. *)
Definition too_many_digits (max_digits : N) (ds : string) : bool :=
  let n := N.of_nat (String.length ds) in
  ((640 <? n) && (0 <? max_digits) && (max_digits <? n))%N.

(** A number: an optional minus sign, then a zero or a run of digits
    that does not start with a zero, then optionally a point and
    digits, then optionally [e] or [E], a sign and digits. It is an
    [int] when it has neither fraction nor exponent, a [float]
    otherwise. [None] when the text does not start with a number. *)
Definition scan_number (to_float : string -> spec_float) (max_digits : N)
    (s : string) : option scanned :=
  let '(neg, s1) :=
    match s with
    | String c r => if (code c =? 45)%N then (true, r) else (false, s)
    | EmptyString => (false, s)
    end in
  match s1 with
  | String c r =>
      if is_digit c then
        let '(ds, s2) :=
          if (code c =? 48)%N then (String c EmptyString, r)
          else let '(d, r') := take_digits r in (String c d, r') in
        let '(frac, s3) :=
          match s2 with
          | String p r2 =>
              if (code p =? 46)%N then
                let '(fd, r3) := take_digits r2 in
                if is_empty fd then (EmptyString, s2) else (String p fd, r3)
              else (EmptyString, s2)
          | EmptyString => (EmptyString, s2)
          end in
        let '(expo, s4) :=
          match s3 with
          | String e r3 =>
              if ((code e =? 101) || (code e =? 69))%N then
                let '(sg, r4) :=
                  match r3 with
                  | String g r4 =>
                      if ((code g =? 43) || (code g =? 45))%N
                      then (String g EmptyString, r4)
                      else (EmptyString, r3)
                  | EmptyString => (EmptyString, r3)
                  end in
                let '(ed, r5) := take_digits r4 in
                if is_empty ed then (EmptyString, s3)
                else (String e (sg ++ ed), r5)
              else (EmptyString, s3)
          | EmptyString => (EmptyString, s3)
          end in
        if is_empty frac && is_empty expo then
          if too_many_digits max_digits ds then Some (Stop ValueError)
          else Some (Read (PyInt (if neg then - digits_value ds
                                  else digits_value ds)%Z) s4)
        else
          Some (Read (PyFloat (to_float ((if neg then "-" else EmptyString)
                                         ++ ds ++ frac ++ expo)))
                     s4)
      else None
  | EmptyString => None
  end.

(** The UTF-8 encoding of a code point. *)
Definition utf8 (cp : N) : string :=
  let b (n : N) := String (ascii_of_N n) EmptyString in
  if (cp <? 128)%N then b cp
  else if (cp <? 2048)%N then
    b (192 + cp / 64)%N ++ b (128 + cp mod 64)%N
  else if (cp <? 65536)%N then
    b (224 + cp / 4096)%N ++ b (128 + (cp / 64) mod 64)%N
      ++ b (128 + cp mod 64)%N
  else
    b (240 + cp / 262144)%N ++ b (128 + (cp / 4096) mod 64)%N
      ++ b (128 + (cp / 64) mod 64)%N ++ b (128 + cp mod 64)%N.

Definition hex_digit (c : ascii) : option N :=
  let n := code c in
  if ((48 <=? n) && (n <=? 57))%N then Some (n - 48)%N
  else if ((97 <=? n) && (n <=? 102))%N then Some (n - 87)%N
  else if ((65 <=? n) && (n <=? 70))%N then Some (n - 55)%N
  else None.

(** Four hexadecimal digits, as after [\u]. *)
Definition hex4 (s : string) : option (N * string) :=
  match s with
  | String a (String b (String c (String d rest))) =>
      match hex_digit a, hex_digit b, hex_digit c, hex_digit d with
      | Some x, Some y, Some z, Some t =>
          Some ((((x * 16 + y) * 16 + z) * 16 + t)%N, rest)
      | _, _, _, _ => None
      end
  | _ => None
  end.

Definition simple_escape (c : ascii) : option N :=
  let n := code c in
  if ((n =? 34) || (n =? 92) || (n =? 47))%N then Some n
  else if (n =? 98)%N then Some 8%N
  else if (n =? 102)%N then Some 12%N
  else if (n =? 110)%N then Some 10%N
  else if (n =? 114)%N then Some 13%N
  else if (n =? 116)%N then Some 9%N
  else None.

(** The body of a string, after its opening quote, up to and
    including the closing one. Control characters are refused; a
    high surrogate followed by a low one is one character. The length
    of the text is fuel enough ([scan_string_fuel_is_enough]). *)
Fixpoint scan_string (fuel : nat) (s acc : string) : option (string * string) :=
  match fuel, s with
  | S fuel, String c r =>
      if (code c =? 34)%N then Some (acc, r)
      else if (code c =? 92)%N then
        match r with
        | String e r1 =>
            match simple_escape e with
            | Some n => scan_string fuel r1 (acc ++ String (ascii_of_N n) EmptyString)
            | None =>
                if (code e =? 117)%N then
                  match hex4 r1 with
                  | Some (hi, r2) =>
                      if ((55296 <=? hi) && (hi <=? 56319))%N then
                        match expect "\u" r2 with
                        | Some r3 =>
                            match hex4 r3 with
                            | Some (lo, r4) =>
                                if ((56320 <=? lo) && (lo <=? 57343))%N then
                                  scan_string fuel r4
                                    (acc ++ utf8 (65536 + (hi - 55296) * 1024
                                                  + (lo - 56320))%N)
                                else scan_string fuel r2 (acc ++ utf8 hi)
                            | None => None
                            end
                        | None => scan_string fuel r2 (acc ++ utf8 hi)
                        end
                      else scan_string fuel r2 (acc ++ utf8 hi)
                  | None => None
                  end
                else None
            end
        | EmptyString => None
        end
      else if (code c <? 32)%N then None
      else scan_string fuel r (acc ++ String c EmptyString)
  | _, _ => None
  end.

Definition string_body (s : string) : option (string * string) :=
  scan_string (String.length s) s EmptyString.

(** [d[key] = v] on the entries of a [dict]. *)
Fixpoint dict_set (key : string) (v : pyval) (entries : list (string * pyval))
  : list (string * pyval) :=
  match entries with
  | (k, x) :: rest =>
      if String.eqb k key then (k, v) :: rest
      else (k, x) :: dict_set key v rest
  | [] => [(key, v)]
  end.

Section Decoder.

(** [float(literal)]; whether the three names Python adds to the
    grammar are read; and the limit on the digits of an integer. *)
Variable to_float : string -> spec_float.
Variable extended : bool.
Variable max_digits : N.

(** [scan_once] reads one value; [members] reads an object from
    its first key on and [elements] an array from its first item
    on. [depth] is the number of arrays and objects that can still be
    opened inside one another: the check comes first when one is
    opened. *)
Fixpoint scan_once (fuel depth : nat) (s : string) : scanned :=
  match fuel, s with
  | S fuel, String c r =>
      if (code c =? 34)%N then
        match string_body r with
        | Some (t, r1) => Read (PyStr t) r1
        | None => Stop JSONDecodeError
        end
      else if (code c =? 123)%N then
        match depth with
        | S depth =>
            match skip_ws r with
            | String c1 r1 =>
                if (code c1 =? 125)%N then Read (PyDict []) r1
                else members fuel depth (String c1 r1) []
            | EmptyString => Stop JSONDecodeError
            end
        | O => Stop RecursionError
        end
      else if (code c =? 91)%N then
        match depth with
        | S depth =>
            match skip_ws r with
            | String c1 r1 =>
                if (code c1 =? 93)%N then Read (PyList []) r1
                else elements fuel depth (String c1 r1) []
            | EmptyString => Stop JSONDecodeError
            end
        | O => Stop RecursionError
        end
      else
        match expect "null" s, expect "true" s, expect "false" s with
        | Some r1, _, _ => Read PyNone r1
        | _, Some r1, _ => Read (PyBool true) r1
        | _, _, Some r1 => Read (PyBool false) r1
        | None, None, None =>
            match scan_number to_float max_digits s with
            | Some res => res
            | None =>
                if extended then
                  match expect "NaN" s, expect "Infinity" s, expect "-Infinity" s with
                  | Some r1, _, _ => Read (PyFloat S754_nan) r1
                  | _, Some r1, _ => Read (PyFloat (S754_infinity false)) r1
                  | _, _, Some r1 => Read (PyFloat (S754_infinity true)) r1
                  | None, None, None => Stop JSONDecodeError
                  end
                else Stop JSONDecodeError
            end
        end
  | _, _ => Stop JSONDecodeError
  end

with members (fuel depth : nat) (s : string) (acc : list (string * pyval))
  : scanned :=
  match fuel, s with
  | S fuel, String c r =>
      if (code c =? 34)%N then
        match string_body r with
        | Some (key, r1) =>
            match skip_ws r1 with
            | String c2 r2 =>
                if (code c2 =? 58)%N then
                  match scan_once fuel depth (skip_ws r2) with
                  | Read v r3 =>
                      let acc := dict_set key v acc in
                      match skip_ws r3 with
                      | String c3 r4 =>
                          if (code c3 =? 125)%N then Read (PyDict acc) r4
                          else if (code c3 =? 44)%N
                               then members fuel depth (skip_ws r4) acc
                               else Stop JSONDecodeError
                      | EmptyString => Stop JSONDecodeError
                      end
                  | Stop e => Stop e
                  end
                else Stop JSONDecodeError
            | EmptyString => Stop JSONDecodeError
            end
        | None => Stop JSONDecodeError
        end
      else Stop JSONDecodeError
  | _, _ => Stop JSONDecodeError
  end

with elements (fuel depth : nat) (s : string) (acc : list pyval) : scanned :=
  match fuel with
  | S fuel =>
      match scan_once fuel depth s with
      | Read v r1 =>
          let acc := (acc ++ [v])%list in
          match skip_ws r1 with
          | String c2 r2 =>
              if (code c2 =? 93)%N then Read (PyList acc) r2
              else if (code c2 =? 44)%N
                   then elements fuel depth (skip_ws r2) acc
                   else Stop JSONDecodeError
          | EmptyString => Stop JSONDecodeError
          end
      | Stop e => Stop e
      end
  | O => Stop JSONDecodeError
  end.

(** One value between optional white space, and nothing after it,
    with [depth] arrays and objects at most inside one another. The
    decoder reads at least one character every second call, so twice
    the length of the text is fuel enough ([loads_fuel_is_enough]). *)
Definition decode_text (depth : nat) (s : string) : decoded :=
  match scan_once (2 * String.length s + 2)%nat depth (skip_ws s) with
  | Read v rest => if is_empty (skip_ws rest) then Value v else Fails JSONDecodeError
  | Stop c => Fails c
  end.

End Decoder.

(** [json.loads(s)], with its exceptions. *)
Definition decode (py : interpreter) (s : string) : decoded :=
  decode_text (float_of_literal py) true (int_max_str_digits py)
    (json_max_nesting py) s.

(** [json.loads(s)] when it returns; [None] when it raises. *)
Definition loads (py : interpreter) (s : string) : option pyval :=
  match decode py s with
  | Value v => Some v
  | Fails _ => None
  end.

(** The spec's valid JSON, for the comparison with [json.loads]: the
    grammar of RFC 8259, which is the one above without the three
    names Python adds, and without limits. No text has more nested
    arrays and objects than characters. *)
Definition valid_json (s : string) : bool :=
  match decode_text (fun _ => S754_zero false) false 0 (String.length s) s with
  | Value _ => true
  | Fails _ => false
  end.

End Json.

(** The three exceptions of the decoder. *)
Definition decoder_exception (c : exn_class) : Prop :=
  c = JSONDecodeError \/ c = ValueError \/ c = RecursionError.


(** ** The script *)

(** What a run leaves behind: the text written to standard output, what
    reached standard error (a line the script printed, or the
    traceback the interpreter writes for an exception nobody caught),
    and the exit status. *)
Inductive stderr_item : Type :=
| Printed (text : string)
| Traceback (c : exn_class).

Record process : Type := {
  to_stdout : string;
  to_stderr : list stderr_item;
  exit_code : Z
}.

(** An exception that reaches the top level: the interpreter writes
    the traceback and exits with status 1. *)
Definition uncaught (c : exn_class) : process :=
  {| to_stdout := EmptyString; to_stderr := [Traceback c]; exit_code := 1 |}.

(** [print(text, file=sys.stderr); sys.exit(1)] *)
Definition fail_with (text : string) : process :=
  {| to_stdout := EmptyString; to_stderr := [Printed (text ++ nl)]; exit_code := 1 |}.

(** [import psutil] *)
Definition import_psutil (w : world) : result unit :=
  if psutil_importable w then Return tt
  else Raise {| exn_type := ModuleNotFoundError;
                exn_text := "No module named 'psutil'" |}.

(** The script run as a program, with [stdin] what [sys.stdin.read()]
    returns. Line 1 imports psutil with the standard modules; lines
    77-81 import it again under [try]; lines 83-84 read and decode the
    input; lines 85-90 call [handler] under [try]. Standard output
    is taken to accept the report; [Script.run] is the script on a
    standard output that can refuse it. *)
Definition main (w : world) (stdin : string) : process :=
  match import_psutil w with
  | Raise e => uncaught (exn_type e)
  | Return _ =>
      match import_psutil w with
      | Raise e =>
          if issubclass (exn_type e) ImportError
          then fail_with "错误：需要安装psutil包，请运行pip install psutil"
          else uncaught (exn_type e)
      | Return _ =>
          let raw := strip stdin in
          match (if negb (Json.is_empty raw)
                 then Json.decode (python w) raw
                 else Json.Value (PyDict [])) with
          | Json.Fails c => uncaught c
          | Json.Value args =>
              match handler w args with
              | Return result =>
                  {| to_stdout := result ++ nl; to_stderr := []; exit_code := 0 |}
              | Raise e =>
                  if issubclass (exn_type e) Exception
                  then fail_with ("生成状态报告失败：" ++ exn_text e)
                  else uncaught (exn_type e)
              end
          end
      end
  end.

(** ** The parts of the report *)

(** The report is a fixed frame around six computed texts. The
    definitions below name the parts; [handler_render] further down
    shows that [handler] returns their concatenation. *)
Module Report.

(** [stdout.strip()] of the probe, or the fallback of the [except]
    clause of lines 13-14. *)
Definition node_version (w : world) : result string :=
  result_try
    (result_bind (subprocess_run_node_v w) (fun p => Return (strip (stdout p))))
    [CalledProcessError; FileNotFoundError; TimeoutError]
    "未安装".

Definition system_platform (w : world) : string :=
  lower (platform_system w) ++ " " ++ fst (platform_architecture w).

(** A byte count in whole megabytes. *)
Definition megabytes (bytes : Z) : Z := (bytes / 1048576)%Z.

Definition memory_status (vm : svmem) : string :=
  "已用" ++ str_int (megabytes (used vm)) ++ "MB / 总"
         ++ str_int (megabytes (total vm)) ++ "MB (剩余"
         ++ str_int (megabytes (available vm)) ++ "MB)".

(** Lines 27-30: title and the first two facts. *)
Definition opening (platform node : string) : string :=
  "# 🤖 WuXing-Agent 自我状态报告" ++ nl ++ nl
  ++ "## 📊 实时运行环境" ++ nl
  ++ "- **系统平台**: " ++ platform ++ nl
  ++ "- **Node.js版本**: " ++ node ++ nl.

(** Line 31 and line 32. *)
Definition memory_line (status : string) : string :=
  "- **内存状态**: " ++ status ++ nl.

Definition time_line (current_time : string) : string :=
  "- **当前时间**: " ++ current_time ++ nl ++ nl.

(** Lines 34-49: capabilities and the workflow diagram. *)
Definition capabilities : string :=
  "## 🛠️ 核心能力" ++ nl
  ++ "作为具备五行自进化能力的编程专家，我可以：" ++ nl
  ++ "1. **文件操作**: 读取项目文件、写入安全隔离的workspace目录" ++ nl
  ++ "2. **代码执行**: 运行Node.js代码并提供测试验证" ++ nl
  ++ "3. **技能内化**: 将通过测试的代码转化为永久技能卡" ++ nl
  ++ "4. **依赖管理**: 按需安装npm包" ++ nl
  ++ "5. **外部协作**: 调用外部专家代理（codex/claude）" ++ nl ++ nl
  ++ "## 📋 标准工作流" ++ nl
  ++ "```mermaid" ++ nl
  ++ "graph LR" ++ nl
  ++ "A[探路<br>list_dir/read_file] --> B[编码<br>write_file]" ++ nl
  ++ "B --> C[验证<br>test_runner]" ++ nl
  ++ "C -->|失败| B" ++ nl
  ++ "C -->|成功| D[内化<br>incorporate_skill]" ++ nl
  ++ "```" ++ nl ++ nl.

(** Lines 51-57: the workspace files, [body] being the bullet lines. *)
Definition files_section (body : string) : string :=
  "## 📂 当前工作区文件" ++ nl ++ body ++ nl.

(** Lines 59-63. *)
Definition experience : string :=
  "## 🧠 历史经验库" ++ nl
  ++ "1. 当无法直接获取特定版本发布信息时，应提供权威官方渠道作为替代方案" ++ nl
  ++ "2. 当需完成编程全生命周期任务时，应遵循探路→编码→验证→内化闭环" ++ nl
  ++ "3. 当Node.js项目启用ES Module时，应遵循对应语法、路径处理及配置规则" ++ nl
  ++ "4. 当代理配置与工具运行逻辑不匹配时，应对齐标准模式并补充必要配置项" ++ nl ++ nl.

(** Lines 65-70: the pending tasks. *)
Definition tasks_section (body : string) : string :=
  "## 🎯 待办事项" ++ nl ++ body.

(** Line 72. *)
Definition closing : string :=
  nl ++ "---" ++ nl ++ "随时可以向我提出编程需求".

(** The bullet of a workspace file and the bullet of a task. *)
Definition file_bullet (path : string) : string := "- `" ++ path ++ "`" ++ nl.
Definition task_bullet (task : string) : string := "- " ++ task ++ nl.

(** The bullet written when there is nothing to list. *)
Definition none_bullet : string := "- 无" ++ nl.

(** The body of a section: one bullet per item of [v], or the
    placeholder when [v] is false. *)
Definition bullets (py : interpreter) (bullet : string -> string) (v : pyval)
  : result string :=
  if py_truthy v then
    result_bind (py_iter v) (fun items =>
      Return (join (map (fun x => bullet (py_format py x)) items)))
  else Return none_bullet.

(** The report, given its computed texts. *)
Definition assemble
    (platform node status current_time files_body tasks_body : string) : string :=
  opening platform node ++ memory_line status ++ time_line current_time
  ++ capabilities ++ files_section files_body ++ experience
  ++ tasks_section tasks_body ++ closing.

(** [handler] on immutable objects, part by part: the two lookups, the
    probe, the two bodies, the assembly. *)
Definition render (w : world) (args : pyval) : result string :=
  result_bind (py_get args "current_workspace_files" (Return (PyList []))) (fun files =>
  result_bind (py_get args "pending_tasks" (Return (PyList []))) (fun tasks =>
  result_bind (node_version w) (fun node =>
  result_bind (bullets (python w) file_bullet files) (fun files_body =>
  result_bind (bullets (python w) task_bullet tasks) (fun tasks_body =>
  Return (assemble (system_platform w) node
            (memory_status (psutil_virtual_memory w)) (now_strftime w)
            files_body tasks_body)))))).

(** The bullet lines of a text: its lines that start with [- ]. *)
Definition bullet_lines (text : string) : list string :=
  filter (String.prefix "- ") (lines text).

(** A key that is absent, or present with an empty list. *)
Definition absent_or_empty (key : string) (entries : list (string * pyval)) : Prop :=
  lookup key entries = None \/ lookup key entries = Some (PyList []).

(** Two hosts that differ at most in the memory reading and in the
    clock. *)
Definition same_but_memory_and_clock (w1 w2 : world) : Prop :=
  python w1 = python w2
  /\ platform_system w1 = platform_system w2
  /\ platform_architecture w1 = platform_architecture w2
  /\ subprocess_run_node_v w1 = subprocess_run_node_v w2.

(** A list of strings as the Python list that holds them. *)
Definition str_list (l : list string) : pyval := PyList (map PyStr l).

End Report.


(** ** Objects in a store *)

(** The same interpreter over mutable objects. A [list] or a [dict]
    lives in the store and is known by its address; two references to
    one address are one object. [handler] run here shows what becomes
    of the objects it is given. *)
Module Heap.

Definition loc : Type := nat.

Inductive value : Type :=
| VNone
| VBool (b : bool)
| VInt (z : Z)
| VFloat (f : spec_float)
| VStr (s : string)
| VRef (l : loc).

Inductive object : Type :=
| OList (items : list value)
| ODict (entries : list (string * value)).

(** The store: the object at address [l] is the [l]-th one, and a new
    object takes the next address. *)
Definition heap : Type := list object.

(** A reference comes from [new], so it is in range; an address out of
    range reads as an empty list. *)
Definition deref (h : heap) (l : loc) : object := nth l h (OList []).

(** Computations that read and write the store and may raise. *)
Definition M (A : Type) : Type := heap -> heap * result A.

Definition new (o : object) : M value :=
  fun h => ((h ++ [o])%list, Return (VRef (List.length h))).

(** Replacing the object at an address, as the mutating methods
    ([append], [sort], [setdefault], [pop], item assignment) do. *)
Fixpoint replace (l : loc) (o : object) (h : heap) : heap :=
  match h, l with
  | _ :: rest, O => o :: rest
  | x :: rest, S l => x :: replace l o rest
  | [], _ => []
  end.

Definition store (l : loc) (o : object) : M unit :=
  fun h => (replace l o h, Return tt).

Definition type_name_in (h : heap) (v : value) : string :=
  match v with
  | VNone => "NoneType"
  | VBool _ => "bool"
  | VInt _ => "int"
  | VFloat _ => "float"
  | VStr _ => "str"
  | VRef l => match deref h l with OList _ => "list" | ODict _ => "dict" end
  end.

Fixpoint find (key : string) (entries : list (string * value)) : option value :=
  match entries with
  | (k, v) :: rest => if String.eqb k key then Some v else find key rest
  | [] => None
  end.

Definition no_get (h : heap) (obj : value) : exn :=
  {| exn_type := AttributeError;
     exn_text := "'" ++ type_name_in h obj ++ "' object has no attribute 'get'" |}.

(** [obj.get(key, default)] *)
Definition obj_get (obj : value) (key : string) (default : M value) : M value :=
  fun h =>
    match obj with
    | VRef l =>
        match deref h l with
        | ODict _ =>
            match default h with
            | (h', Return d) =>
                match deref h' l with
                | ODict entries =>
                    (h', Return (match find key entries with
                                 | Some v => v
                                 | None => d
                                 end))
                | OList _ => (h', Raise (no_get h' obj))
                end
            | (h', Raise e) => (h', Raise e)
            end
        | OList _ => (h, Raise (no_get h obj))
        end
    | _ => (h, Raise (no_get h obj))
    end.

(** The truth value of an object. *)
Definition truth (h : heap) (v : value) : bool :=
  match v with
  | VNone => false
  | VBool b => b
  | VInt z => negb (z =? 0)%Z
  | VFloat (S754_zero _) => false
  | VFloat _ => true
  | VStr s => negb (String.eqb s EmptyString)
  | VRef l =>
      match deref h l with
      | OList [] | ODict [] => false
      | _ => true
      end
  end.

Definition obj_truthy (v : value) : M bool :=
  fun h => (h, Return (truth h v)).

(** The items a loop visits. The loop of [handler] changes no object,
    so the items are those the object has when the loop starts. *)
Definition items_of (h : heap) (v : value) : result (list value) :=
  match v with
  | VStr s => Return (map VStr (chars s))
  | VRef l =>
      match deref h l with
      | OList items => Return items
      | ODict entries => Return (map (fun kv => VStr (fst kv)) entries)
      end
  | _ =>
      Raise {| exn_type := TypeError;
               exn_text := "'" ++ type_name_in h v ++ "' object is not iterable" |}
  end.

Definition obj_iter (v : value) : M (list value) :=
  fun h => (h, items_of h v).

(** [repr(v)]. An object met again inside its own [repr] is written
    [[...]] or [{...}]; [visiting] holds the addresses being written.
    Each nested object adds an address, so the size of the store
    bounds the depth. *)
Fixpoint repr (py : interpreter) (fuel : nat) (visiting : list loc)
    (h : heap) (v : value) : string :=
  match v with
  | VNone => "None"
  | VBool true => "True"
  | VBool false => "False"
  | VInt z => str_int z
  | VFloat f => repr_float py f
  | VStr s => repr_str py s
  | VRef l =>
      match fuel with
      | O => EmptyString
      | S fuel =>
          match deref h l with
          | OList items =>
              if existsb (Nat.eqb l) visiting then "[...]"
              else "[" ++ comma_join (map (repr py fuel (l :: visiting) h) items)
                       ++ "]"
          | ODict entries =>
              if existsb (Nat.eqb l) visiting then "{...}"
              else "{" ++ comma_join
                            (map (fun kv => repr_str py (fst kv) ++ ": "
                                            ++ repr py fuel (l :: visiting) h (snd kv))
                                 entries)
                       ++ "}"
          end
      end
  end.

(** What an f-string writes for [{v}]. *)
Definition text_of (py : interpreter) (h : heap) (v : value) : string :=
  match v with
  | VStr s => s
  | _ => repr py (S (List.length h)) [] h v
  end.

Definition obj_format (py : interpreter) (v : value) : M string :=
  fun h => (h, Return (text_of py h v)).

#[export] Instance heap_python : Python M value := {|
  ret := fun A a h => (h, Return a);
  bind := fun A B m k h =>
            match m h with
            | (h', Return a) => k a h'
            | (h', Raise e) => (h', Raise e)
            end;
  host := fun A r h => (h, r);
  try_except := fun A body classes fallback h =>
            match body h with
            | (h', Return a) => (h', Return a)
            | (h', Raise e) =>
                if existsb (issubclass (exn_type e)) classes
                then (h', Return fallback)
                else (h', Raise e)
            end;
  empty_list := new (OList []);
  get := obj_get;
  truthy := obj_truthy;
  iter := obj_iter;
  format := obj_format
|}.

(** [handler] over the store. *)
Definition run_handler (w : world) (args : value) : M string :=
  handler (M := M) (V := value) w args.

(** The body of a section, read from the store. *)
Definition bullets_in (py : interpreter) (bullet : string -> string)
    (h : heap) (v : value) : result string :=
  if truth h v then
    result_bind (items_of h v) (fun items =>
      Return (join (map (fun x => bullet (text_of py h x)) items)))
  else Return Report.none_bullet.

(** A computation that leaves every object of the store as it is, and
    at most adds empty lists after them. *)
Definition preserving {A : Type} (m : M A) : Prop :=
  forall h, exists fresh,
    fst (m h) = (h ++ fresh)%list /\ Forall (fun o => o = OList []) fresh.

(** A store holds the tree [p] at the value [v]. *)
Inductive holds (h : heap) : value -> pyval -> Prop :=
| holds_none : holds h VNone PyNone
| holds_bool b : holds h (VBool b) (PyBool b)
| holds_int z : holds h (VInt z) (PyInt z)
| holds_float f : holds h (VFloat f) (PyFloat f)
| holds_str s : holds h (VStr s) (PyStr s)
| holds_list l items ps :
    (l < List.length h)%nat ->
    deref h l = OList items ->
    Forall2 (holds h) items ps ->
    holds h (VRef l) (PyList ps)
| holds_dict l entries ps :
    (l < List.length h)%nat ->
    deref h l = ODict entries ->
    Forall2 (fun e q => fst e = fst q /\ holds h (snd e) (snd q)) entries ps ->
    holds h (VRef l) (PyDict ps).

(** What [repr] needs of the addresses being written: they are
    distinct addresses of the store, each of an object that holds a
    larger tree than the one at hand. *)
Definition enclosing (h : heap) (visiting : list loc) (p : pyval) : Prop :=
  NoDup visiting /\
  forall a, In a visiting ->
    (a < List.length h)%nat /\
    exists pa, holds h (VRef a) pa /\ (pyval_size p < pyval_size pa)%nat.

(** Two outcomes that agree: the same exception, or values that hold
    the same trees. *)
Definition agree {A B : Type} (R : A -> B -> Prop) (r : result A) (t : result B) : Prop :=
  match r, t with
  | Return a, Return b => R a b
  | Raise e, Raise e' => e = e'
  | _, _ => False
  end.

(** A store that is another one followed by empty lists. *)
Definition extended (h h' : heap) : Prop :=
  exists fresh, h' = (h ++ fresh)%list /\ Forall (fun o => o = OList []) fresh.

(** A computation over the store that does what a computation on
    trees does: it only extends the store, and both raise the same
    exception or return values that [R] relates in the new store. *)
Definition simulates {A B : Type} (R : heap -> A -> B -> Prop)
    (m : M A) (t : result B) (h : heap) : Prop :=
  extended h (fst (m h)) /\ agree (R (fst (m h))) (snd (m h)) t.

(** Values of a type without references are related when equal. *)
Definition same {A : Type} (_ : heap) (a b : A) : Prop := a = b.

End Heap.


(** ** Sample hosts *)

Module Sample.

(** An interpreter for the samples: the conversions [handler] never
    reaches on lists of strings are given simple stand-ins. *)
Definition py : interpreter := {|
  float_of_literal := fun _ => S754_zero false;
  repr_float := fun _ => "0.0";
  repr_str := fun s => "'" ++ s ++ "'";
  int_max_str_digits := 4300;
  json_max_nesting := 995
|}.

Definition memory : svmem :=
  {| total := 8000000000; available := 3000000000; used := 4000000000 |}.

(** A host where node answers. *)
Definition host : world := {|
  python := py;
  psutil_importable := true;
  platform_system := "Linux";
  platform_architecture := ("64bit", "ELF");
  subprocess_run_node_v := Return {| returncode := 0; stdout := "v18.17.0" ++ nl |};
  psutil_virtual_memory := memory;
  now_strftime := "2024-05-01 Wednesday"
|}.

(** The same host with another outcome of the probe. *)
Definition with_probe (outcome : result CompletedProcess) : world := {|
  python := py;
  psutil_importable := true;
  platform_system := "Linux";
  platform_architecture := ("64bit", "ELF");
  subprocess_run_node_v := outcome;
  psutil_virtual_memory := memory;
  now_strftime := "2024-05-01 Wednesday"
|}.

(** The probe runs out of its five seconds. *)
Definition timed_out : exn :=
  {| exn_type := TimeoutExpired;
     exn_text := "Command '['node', '-v']' timed out after 5 seconds" |}.

(** There is no [node] to run. *)
Definition no_node : exn :=
  {| exn_type := FileNotFoundError;
     exn_text := "[Errno 2] No such file or directory: 'node'" |}.

(** The same host later, with other memory figures. *)
Definition later : world := {|
  python := py;
  psutil_importable := true;
  platform_system := "Linux";
  platform_architecture := ("64bit", "ELF");
  subprocess_run_node_v := Return {| returncode := 0; stdout := "v18.17.0" ++ nl |};
  psutil_virtual_memory :=
    {| total := 8000000000; available := 1000000000; used := 6500000000 |};
  now_strftime := "2024-05-02 Thursday"
|}.

(** A host without psutil. *)
Definition bare : world := {|
  python := py;
  psutil_importable := false;
  platform_system := "Linux";
  platform_architecture := ("64bit", "ELF");
  subprocess_run_node_v := Return {| returncode := 0; stdout := "v18.17.0" ++ nl |};
  psutil_virtual_memory := memory;
  now_strftime := "2024-05-01 Wednesday"
|}.

Definition two_files : pyval :=
  PyDict [("current_workspace_files", Report.str_list ["src/a.js"; "README.md"])].

(** One path, with a line feed in it. *)
Definition broken_path : string := "a" ++ nl ++ "- `b".

Definition one_broken_file : pyval :=
  PyDict [("current_workspace_files", Report.str_list [broken_path])].

(** A store where the mapping, at address 0, holds one and the same
    list, at address 1, under both keys. *)
Definition shared_store : Heap.heap :=
  [ Heap.ODict [("current_workspace_files", Heap.VRef 1);
                ("pending_tasks", Heap.VRef 1)];
    Heap.OList [Heap.VStr "notes.md"; Heap.VStr "todo.md"] ].

(** What [handler] returns, or the empty text when it raises. *)
Definition returned (r : result string) : string :=
  match r with Return text => text | Raise _ => EmptyString end.

Definition two_files_report : string :=
  Eval vm_compute in returned (handler host two_files).

Definition empty_report : string :=
  Eval vm_compute in returned (handler host (PyDict [])).

End Sample.


(** ** The script, step by step *)

Module Script.

(** Lines 83-84: what [handler] is called on, [None] when the decoder
    raises. *)
Definition input (w : world) (stdin : string) : option pyval :=
  let raw := strip stdin in
  if negb (Json.is_empty raw) then Json.loads (python w) raw else Some (PyDict []).

(** Lines 85-90: the report on standard output, or the failure on
    standard error. *)
Definition report_or_fail (w : world) (args : pyval) : process :=
  match handler w args with
  | Return result =>
      {| to_stdout := result ++ nl; to_stderr := []; exit_code := 0 |}
  | Raise e =>
      if issubclass (exn_type e) Exception
      then fail_with ("生成状态报告失败：" ++ exn_text e)
      else uncaught (exn_type e)
  end.

(** [print(result)] on the standard output of the host: [None] when
    the stream takes the text and its line feed, the exception raised
    otherwise, as when its encoding has no bytes for a character of
    the text; nothing is written then. The stream is taken to be open
    and its device to take the bytes. *)
Definition printer : Type := string -> option exn.

(** Lines 85-90 on that standard output: line 87 stands under the
    [try] as line 86 does. *)
Definition report_or_fail_on (print : printer) (w : world) (args : pyval) : process :=
  match result_bind (handler w args)
          (fun result =>
             match print result with
             | None => Return result
             | Some e => Raise e
             end) with
  | Return result =>
      {| to_stdout := result ++ nl; to_stderr := []; exit_code := 0 |}
  | Raise e =>
      if issubclass (exn_type e) Exception
      then fail_with ("生成状态报告失败：" ++ exn_text e)
      else uncaught (exn_type e)
  end.

(** The script run as a program on a host whose standard output is
    [print]: [main] is the case of a standard output that takes every
    text ([main_is_run]). *)
Definition run (print : printer) (w : world) (stdin : string) : process :=
  match import_psutil w with
  | Raise e => uncaught (exn_type e)
  | Return _ =>
      match import_psutil w with
      | Raise e =>
          if issubclass (exn_type e) ImportError
          then fail_with "错误：需要安装psutil包，请运行pip install psutil"
          else uncaught (exn_type e)
      | Return _ =>
          let raw := strip stdin in
          match (if negb (Json.is_empty raw)
                 then Json.decode (python w) raw
                 else Json.Value (PyDict [])) with
          | Json.Fails c => uncaught c
          | Json.Value args => report_or_fail_on print w args
          end
      end
  end.

Definition is_dict (v : pyval) : bool :=
  match v with PyDict _ => true | _ => false end.

(** The objects a loop cannot visit. *)
Definition not_iterable (v : pyval) : bool :=
  match v with
  | PyNone | PyBool _ | PyInt _ | PyFloat _ => true
  | PyStr _ | PyList _ | PyDict _ => false
  end.

(** The mapping [entries] gives the list of strings [l] under [key]:
    the key holds that list, or is absent and the list is empty. *)
Definition lists (key : string) (entries : list (string * pyval))
    (l : list string) : Prop :=
  lookup key entries = Some (Report.str_list l)
  \/ (lookup key entries = None /\ l = []).

(** The body of a section for a list of strings. *)
Definition body (bullet : string -> string) (l : list string) : string :=
  match l with
  | [] => Report.none_bullet
  | _ :: _ => join (map bullet l)
  end.

(** A character of a text: one byte that is not a continuation byte,
    followed by continuation bytes. *)
Definition character (ch : string) : bool :=
  match ch with
  | String c k =>
      negb (is_continuation c)
      && forallb is_continuation (list_ascii_of_string k)
  | EmptyString => false
  end.

(** An item of [chars]: a byte followed by continuation bytes. *)
Definition item (ch : string) : bool :=
  match ch with
  | String _ k => forallb is_continuation (list_ascii_of_string k)
  | EmptyString => false
  end.

(** What [strip] keeps of the characters of a text. *)
Definition kept (s : string) : list string :=
  rev (drop_spaces (rev (drop_spaces (chars s)))).

(** A text that does not start in the middle of a character. *)
Definition starts_clean (s : string) : bool :=
  match s with
  | String c _ => negb (is_continuation c)
  | EmptyString => true
  end.

(** The first character of a text is white space, and so is the last. *)
Definition starts_with_space (s : string) : bool :=
  match chars s with
  | ch :: _ => is_space ch
  | [] => false
  end.

Definition ends_with_space (s : string) : bool :=
  match rev (chars s) with
  | ch :: _ => is_space ch
  | [] => false
  end.

(** The lines of a text that ends with a line feed, the empty line
    that [split] gives after the last line feed left out. *)
Definition block (s : string) : list string := removelast (lines s).

(** The bullet lines of a section for a list of strings. *)
Definition listing (bullet : string -> string) (l : list string) : list string :=
  match l with
  | [] => ["- 无"]
  | _ :: _ => map bullet l
  end.

(** The report as a list of lines. *)
Definition report_lines
    (platform node status current_time : string) (files tasks : list string)
  : list string :=
  (["# 🤖 WuXing-Agent 自我状态报告";
    EmptyString;
    "## 📊 实时运行环境";
    ("- **系统平台**: " ++ platform)%string;
    ("- **Node.js版本**: " ++ node)%string;
    ("- **内存状态**: " ++ status)%string;
    ("- **当前时间**: " ++ current_time)%string;
    EmptyString]
   ++ block Report.capabilities
   ++ ["## 📂 当前工作区文件"]
   ++ listing (fun path => ("- `" ++ path ++ "`")%string) files
   ++ [EmptyString]
   ++ block Report.experience
   ++ ["## 🎯 待办事项"]
   ++ listing (fun task => ("- " ++ task)%string) tasks
   ++ [EmptyString; "---"; "随时可以向我提出编程需求"])%list.

End Script.

Module Cases.

(** A store that holds one list under both keys, and the tree it
    holds. *)
Definition shared_tree : pyval :=
  PyDict [("current_workspace_files", PyList [PyStr "notes.md"; PyStr "todo.md"]);
          ("pending_tasks", PyList [PyStr "notes.md"; PyStr "todo.md"])].

Definition two_tasks : pyval :=
  PyDict [("pending_tasks", Report.str_list ["write tests"; "ship"])].

Definition two_tasks_report : string :=
  Eval vm_compute in Sample.returned (handler Sample.host two_tasks).

(** The probe exits with status 1 after it printed a line. *)
Definition failed_run : result CompletedProcess :=
  Return {| returncode := 1; stdout := " node: bad option" ++ nl |}.

(** A standard output in UTF-8, which has no bytes for a surrogate:
    [print] raises [UnicodeEncodeError] on the first surrogate of the
    text, or the first run of them, with the text Python gives it. *)
Definition surrogate (ch : string) : option N :=
  match map N_of_ascii (list_ascii_of_string ch) with
  | [237; b; c] =>
      if (160 <=? b)%N then Some (53248 + (b - 128) * 64 + (c - 128))%N else None
  | _ => None
  end%N.

Fixpoint surrogate_run (l : list string) : nat :=
  match l with
  | ch :: rest =>
      match surrogate ch with
      | Some _ => S (surrogate_run rest)
      | None => O
      end
  | [] => O
  end.

(** Where the first surrogate stands, its code point and how many
    follow it. *)
Fixpoint first_surrogate (position : nat) (l : list string) : option (nat * N * nat) :=
  match l with
  | ch :: rest =>
      match surrogate ch with
      | Some cp => Some (position, cp, surrogate_run rest)
      | None => first_surrogate (S position) rest
      end
  | [] => None
  end.

Definition lower_hex (n : N) : string :=
  String (ascii_of_N (if n <? 10 then 48 + n else 87 + n)%N) EmptyString.

Definition lower_hex4 (cp : N) : string :=
  lower_hex (cp / 4096) ++ lower_hex ((cp / 256) mod 16)
  ++ lower_hex ((cp / 16) mod 16) ++ lower_hex (cp mod 16).

Definition utf8_stdout : Script.printer := fun text =>
  match first_surrogate 0 (chars text) with
  | Some (position, cp, more) =>
      Some {| exn_type := UnicodeEncodeError;
              exn_text :=
                match more with
                | O =>
                    "'utf-8' codec can't encode character '\u" ++ lower_hex4 cp
                    ++ "' in position " ++ str_int (Z.of_nat position)
                    ++ ": surrogates not allowed"
                | S _ =>
                    "'utf-8' codec can't encode characters in position "
                    ++ str_int (Z.of_nat position) ++ "-"
                    ++ str_int (Z.of_nat (position + more))
                    ++ ": surrogates not allowed"
                end |}
  | None => None
  end.

(** A double quote, and three inputs: an object that holds [NaN], a
    task made of a lone surrogate, and two texts that meet the limits
    of the sample interpreter, an integer of 4301 digits and 996
    arrays inside one another. *)
Definition dq : string := String (ascii_of_nat 34) EmptyString.

Definition nan_object : string := "{" ++ dq ++ "a" ++ dq ++ ": NaN}".

Definition surrogate_task : string :=
  "{" ++ dq ++ "pending_tasks" ++ dq ++ ": [" ++ dq ++ "\ud83d" ++ dq ++ "]}".

Definition long_integer : string := String.concat EmptyString (repeat "1" 4301).

Definition deep_array : string :=
  String.concat EmptyString (repeat "[" 996) ++ String.concat EmptyString (repeat "]" 996).

End Cases.


(** * Properties *)

(** ** Text *)

Lemma append_assoc (a b c : string) : (a ++ b) ++ c = a ++ (b ++ c).
Proof. induction a as [|x a IH]; simpl; [reflexivity | now rewrite IH]. Qed.

Lemma append_nil_r (a : string) : a ++ EmptyString = a.
Proof. induction a as [|x a IH]; simpl; [reflexivity | now rewrite IH]. Qed.

Lemma join_cons (x : string) (l : list string) : join (x :: l) = x ++ join l.
Proof.
  unfold join. destruct l as [|y l]; simpl; [now rewrite append_nil_r | reflexivity].
Qed.

(** ** The report, part by part *)

(** A loop that appends one text per item appends their concatenation. *)
Lemma for_each_appends (f : pyval -> string) (body : string -> pyval -> result string) :
  (forall report x, body report x = Return (report ++ f x)) ->
  forall items report,
    for_each items body report = Return (report ++ join (map f items)).
Proof.
  intros Hbody. induction items as [|x items IH]; intros report.
  - cbn. now rewrite append_nil_r.
  - cbn [for_each bind tree_python]. rewrite Hbody. cbn [result_bind].
    rewrite IH. cbn [map]. rewrite join_cons, append_assoc. reflexivity.
Qed.

Ltac reassoc := repeat rewrite append_assoc.

(** A section's loop, or its placeholder, appends the body [bullets]
    describes. *)
Lemma section_appends (py : interpreter) (bullet : string -> string)
    (body : string -> pyval -> result string) (v : pyval) (report : string) :
  (forall report x, body report x = Return (report ++ bullet (py_format py x))) ->
  (if py_truthy v
   then result_bind (py_iter v) (fun items => for_each items body report)
   else Return (report ++ "- 无" ++ nl))
  = result_bind (Report.bullets py bullet v) (fun b => Return (report ++ b)).
Proof.
  intros Hbody. unfold Report.bullets.
  destruct (py_truthy v); [|reflexivity].
  destruct (py_iter v) as [items|e]; cbn [result_bind]; [|reflexivity].
  apply (for_each_appends (fun x => bullet (py_format py x)) body Hbody).
Qed.

(** [handler] returns the parts of [Report], assembled. *)
Lemma handler_render (w : world) (args : pyval) :
  handler w args = Report.render w args.
Proof.
  unfold handler, Report.render.
  cbn [bind ret get truthy iter format host try_except empty_list tree_python].
  destruct (py_get args "current_workspace_files" (Return (PyList []))) as [files|e];
    cbn [result_bind]; [|reflexivity].
  destruct (py_get args "pending_tasks" (Return (PyList []))) as [tasks|e];
    cbn [result_bind]; [|reflexivity].
  fold (Report.node_version w).
  destruct (Report.node_version w) as [node|e]; cbn [result_bind]; [|reflexivity].
  rewrite (section_appends (python w) Report.file_bullet) by (intros; reflexivity).
  destruct (Report.bullets (python w) Report.file_bullet files) as [fb|e];
    cbn [result_bind]; [|reflexivity].
  rewrite (section_appends (python w) Report.task_bullet) by (intros; reflexivity).
  destruct (Report.bullets (python w) Report.task_bullet tasks) as [tb|e];
    cbn [result_bind]; [|reflexivity].
  f_equal.
  unfold Report.assemble, Report.opening, Report.memory_line, Report.time_line,
    Report.capabilities, Report.files_section, Report.experience,
    Report.tasks_section, Report.closing, Report.system_platform,
    Report.memory_status, Report.megabytes.
  reassoc. reflexivity.
Qed.

(** ** The probe *)

(** A missing binary is the one failure the [except] clause recovers:
    [FileNotFoundError] is in its list. *)
Lemma probe_missing_binary (w : world) (e : exn) :
  subprocess_run_node_v w = Raise e ->
  exn_type e = FileNotFoundError ->
  Report.node_version w = Return "未安装".
Proof.
  intros Hrun Hty. unfold Report.node_version. rewrite Hrun. cbn [result_bind result_try].
  rewrite Hty. reflexivity.
Qed.

(** [subprocess.run] is called without [check=True]: a run that ends
    with a status other than zero returns, and its output is taken as
    the version. *)
Lemma probe_nonzero_exit (w : world) (rc : Z) (out : string) :
  subprocess_run_node_v w = Return {| returncode := rc; stdout := out |} ->
  Report.node_version w = Return (strip out).
Proof.
  intros Hrun. unfold Report.node_version. now rewrite Hrun.
Qed.

(** C1 (evaluation at the failing input). When the probe exceeds its
    five seconds, [subprocess.run] raises [TimeoutExpired], which is
    not a subclass of any class the [except] clause lists: [handler]
    raises it in turn and returns no report. *)
Theorem probe_timeout_escapes (w : world) (entries : list (string * pyval)) (e : exn) :
  subprocess_run_node_v w = Raise e ->
  exn_type e = TimeoutExpired ->
  handler w (PyDict entries) = Raise e.
Proof.
  intros Hrun Hty. rewrite handler_render. unfold Report.render.
  cbn [py_get result_bind]. unfold Report.node_version.
  rewrite Hrun. cbn [result_bind result_try]. rewrite Hty. reflexivity.
Qed.

Lemma probe_timeout_escapes_witness :
  subprocess_run_node_v (Sample.with_probe (Raise Sample.timed_out))
    = Raise Sample.timed_out
  /\ exn_type Sample.timed_out = TimeoutExpired
  /\ handler (Sample.with_probe (Raise Sample.timed_out)) (PyDict [])
     = Raise Sample.timed_out.
Proof.
  split; [reflexivity | split; [reflexivity |]].
  apply (probe_timeout_escapes (Sample.with_probe (Raise Sample.timed_out)) []);
    reflexivity.
Defined.

(** What [handler] returns is an assembly of the parts. *)
Lemma handler_returns (w : world) (args : pyval) (report : string) :
  handler w args = Return report ->
  exists files tasks node files_body tasks_body,
    py_get args "current_workspace_files" (Return (PyList [])) = Return files /\
    py_get args "pending_tasks" (Return (PyList [])) = Return tasks /\
    Report.node_version w = Return node /\
    Report.bullets (python w) Report.file_bullet files = Return files_body /\
    Report.bullets (python w) Report.task_bullet tasks = Return tasks_body /\
    report = Report.assemble (Report.system_platform w) node
               (Report.memory_status (psutil_virtual_memory w)) (now_strftime w)
               files_body tasks_body.
Proof.
  rewrite handler_render. unfold Report.render. intros H.
  destruct (py_get args "current_workspace_files" _) as [files|] eqn:Hf; [|discriminate].
  destruct (py_get args "pending_tasks" _) as [tasks|] eqn:Ht; [|discriminate].
  cbn [result_bind] in H.
  destruct (Report.node_version w) as [node|] eqn:Hn; [|discriminate].
  cbn [result_bind] in H.
  destruct (Report.bullets _ _ files) as [fb|] eqn:Hfb; [|discriminate].
  destruct (Report.bullets _ _ tasks) as [tb|] eqn:Htb; [|discriminate].
  cbn [result_bind] in H. injection H as <-.
  exists files, tasks, node, fb, tb. repeat split; assumption.
Qed.

(** ** The memory line *)

(** C3. Whenever [handler] returns, the line after the two first facts
    is the memory line: the used, total and available byte counts, each
    divided by 1,048,576 and rounded down, between the fixed words of
    the format (已用 used, 总 total, 剩余 free). *)
Theorem memory_line_format (w : world) (args : pyval) (report : string) :
  handler w args = Return report ->
  exists node rest,
    Report.node_version w = Return node /\
    report =
      Report.opening (Report.system_platform w) node
      ++ "- **内存状态**: "
      ++ "已用" ++ str_int (used (psutil_virtual_memory w) / 1048576)
      ++ "MB / 总" ++ str_int (total (psutil_virtual_memory w) / 1048576)
      ++ "MB (剩余" ++ str_int (available (psutil_virtual_memory w) / 1048576)
      ++ "MB)" ++ nl ++ rest.
Proof.
  intros H.
  destruct (handler_returns _ _ _ H)
    as (files & tasks & node & fb & tb & _ & _ & Hnode & _ & _ & ->).
  exists node. eexists. split; [exact Hnode|].
  unfold Report.assemble, Report.memory_line, Report.memory_status, Report.megabytes.
  reassoc. reflexivity.
Qed.

Lemma memory_line_format_witness :
  handler Sample.host Sample.two_files = Return Sample.two_files_report
  /\ exists node rest,
       Report.node_version Sample.host = Return node /\
       Sample.two_files_report =
         Report.opening (Report.system_platform Sample.host) node
         ++ "- **内存状态**: "
         ++ "已用" ++ str_int (4000000000 / 1048576)
         ++ "MB / 总" ++ str_int (8000000000 / 1048576)
         ++ "MB (剩余" ++ str_int (3000000000 / 1048576)
         ++ "MB)" ++ nl ++ rest.
Proof.
  split; [vm_compute; reflexivity|].
  apply (memory_line_format Sample.host Sample.two_files).
  vm_compute; reflexivity.
Defined.

(** C4. For a reading whose total is at least its used and at least
    its available byte count, the three figures of the memory line,
    [U], [T] and [F], satisfy [U <= T] and [F <= T]. *)
Theorem memory_line_total_bounds (w : world) (args : pyval) (report : string) :
  handler w args = Return report ->
  (used (psutil_virtual_memory w) <= total (psutil_virtual_memory w))%Z ->
  (available (psutil_virtual_memory w) <= total (psutil_virtual_memory w))%Z ->
  exists U T F : Z,
    (exists before rest,
        report = before ++ "- **内存状态**: 已用" ++ str_int U ++ "MB / 总"
                        ++ str_int T ++ "MB (剩余" ++ str_int F ++ "MB)" ++ nl ++ rest)
    /\ U = (used (psutil_virtual_memory w) / 1048576)%Z
    /\ T = (total (psutil_virtual_memory w) / 1048576)%Z
    /\ F = (available (psutil_virtual_memory w) / 1048576)%Z
    /\ (U <= T)%Z /\ (F <= T)%Z.
Proof.
  intros H Hused Hfree.
  destruct (handler_returns _ _ _ H)
    as (files & tasks & node & fb & tb & _ & _ & _ & _ & _ & ->).
  eexists _, _, _. split; [|repeat split].
  - exists (Report.opening (Report.system_platform w) node). eexists.
    unfold Report.assemble, Report.memory_line, Report.memory_status, Report.megabytes.
    reassoc. reflexivity.
  - apply Z.div_le_mono; [reflexivity | exact Hused].
  - apply Z.div_le_mono; [reflexivity | exact Hfree].
Qed.

Lemma memory_line_total_bounds_witness :
  handler Sample.host Sample.two_files = Return Sample.two_files_report
  /\ (4000000000 <= 8000000000)%Z /\ (3000000000 <= 8000000000)%Z
  /\ exists U T F : Z,
      (exists before rest,
          Sample.two_files_report
          = before ++ "- **内存状态**: 已用" ++ str_int U ++ "MB / 总"
                   ++ str_int T ++ "MB (剩余" ++ str_int F ++ "MB)" ++ nl ++ rest)
      /\ U = (4000000000 / 1048576)%Z
      /\ T = (8000000000 / 1048576)%Z
      /\ F = (3000000000 / 1048576)%Z
      /\ (U <= T)%Z /\ (F <= T)%Z.
Proof.
  split; [vm_compute; reflexivity|]. split; [lia|]. split; [lia|].
  apply (memory_line_total_bounds Sample.host Sample.two_files).
  - vm_compute; reflexivity.
  - simpl; lia.
  - simpl; lia.
Defined.

(** ** Nothing to list *)

Lemma absent_or_empty_bullets (py : interpreter) (bullet : string -> string)
    (key : string) (entries : list (string * pyval)) :
  Report.absent_or_empty key entries ->
  exists v,
    py_get (PyDict entries) key (Return (PyList [])) = Return v /\
    Report.bullets py bullet v = Return Report.none_bullet.
Proof.
  intros [H|H]; exists (PyList []); cbn [py_get result_bind]; rewrite H; split; reflexivity.
Qed.

(** With nothing to list, the report ends on the two sections with
    their placeholder and on the closing words. *)
Lemma nothing_to_list (w : world) (entries : list (string * pyval)) (report : string) :
  Report.absent_or_empty "current_workspace_files" entries ->
  Report.absent_or_empty "pending_tasks" entries ->
  handler w (PyDict entries) = Return report ->
  exists node,
    Report.node_version w = Return node /\
    report = Report.assemble (Report.system_platform w) node
               (Report.memory_status (psutil_virtual_memory w)) (now_strftime w)
               Report.none_bullet Report.none_bullet.
Proof.
  intros Hfiles Htasks H.
  destruct (absent_or_empty_bullets (python w) Report.file_bullet _ _ Hfiles)
    as (fv & Hfget & Hfb).
  destruct (absent_or_empty_bullets (python w) Report.task_bullet _ _ Htasks)
    as (tv & Htget & Htb).
  destruct (handler_returns _ _ _ H)
    as (files & tasks & node & fb & tb & Hf & Ht & Hnode & Hfb' & Htb' & ->).
  rewrite Hfget in Hf. injection Hf as <-.
  rewrite Htget in Ht. injection Ht as <-.
  rewrite Hfb in Hfb'. injection Hfb' as <-.
  rewrite Htb in Htb'. injection Htb' as <-.
  exists node. split; [exact Hnode | reflexivity].
Qed.

(** The end of a report that lists nothing. *)
Lemma assemble_placeholders (platform node status current_time : string) :
  Report.assemble platform node status current_time
    Report.none_bullet Report.none_bullet
  = (Report.opening platform node ++ Report.memory_line status
       ++ Report.time_line current_time ++ Report.capabilities)
    ++ ("## 📂 当前工作区文件" ++ nl ++ "- 无" ++ nl ++ nl)
    ++ Report.experience
    ++ ("## 🎯 待办事项" ++ nl ++ "- 无" ++ nl)
    ++ Report.closing.
Proof.
  unfold Report.assemble, Report.files_section, Report.tasks_section, Report.none_bullet.
  reassoc. reflexivity.
Qed.

(** C6. When both lists are empty, or their keys absent, the files
    section and the tasks section each hold the placeholder bullet
    [- 无] and nothing else. *)
Theorem empty_lists_placeholders
    (w : world) (entries : list (string * pyval)) (report : string) :
  Report.absent_or_empty "current_workspace_files" entries ->
  Report.absent_or_empty "pending_tasks" entries ->
  handler w (PyDict entries) = Return report ->
  exists before,
    report =
      before
      ++ ("## 📂 当前工作区文件" ++ nl ++ "- 无" ++ nl ++ nl)
      ++ Report.experience
      ++ ("## 🎯 待办事项" ++ nl ++ "- 无" ++ nl)
      ++ Report.closing.
Proof.
  intros Hfiles Htasks H.
  destruct (nothing_to_list w entries report Hfiles Htasks H) as (node & _ & ->).
  eexists. apply assemble_placeholders.
Qed.

Lemma empty_lists_placeholders_witness :
  Report.absent_or_empty "current_workspace_files" [("pending_tasks", PyList [])]
  /\ Report.absent_or_empty "pending_tasks" [("pending_tasks", PyList [])]
  /\ handler Sample.host (PyDict [("pending_tasks", PyList [])])
     = Return Sample.empty_report
  /\ exists before,
      Sample.empty_report =
        before
        ++ ("## 📂 当前工作区文件" ++ nl ++ "- 无" ++ nl ++ nl)
        ++ Report.experience
        ++ ("## 🎯 待办事项" ++ nl ++ "- 无" ++ nl)
        ++ Report.closing.
Proof.
  assert (Hf : Report.absent_or_empty "current_workspace_files" [("pending_tasks", PyList [])])
    by (left; reflexivity).
  assert (Ht : Report.absent_or_empty "pending_tasks" [("pending_tasks", PyList [])])
    by (right; reflexivity).
  assert (Hr : handler Sample.host (PyDict [("pending_tasks", PyList [])])
               = Return Sample.empty_report) by (vm_compute; reflexivity).
  repeat split; try assumption.
  exact (empty_lists_placeholders Sample.host _ _ Hf Ht Hr).
Defined.

(** ** Two runs *)

(** C8. Two calls on the same input, on hosts that differ at most in
    the memory reading and in the clock, either raise the same
    exception or return reports that are the same text around the
    memory status and around the timestamp. *)
Theorem two_runs_agree (w1 w2 : world) (args : pyval) :
  Report.same_but_memory_and_clock w1 w2 ->
  (exists e, handler w1 args = Raise e /\ handler w2 args = Raise e)
  \/
  (exists before between rest,
      handler w1 args
      = Return (before ++ Report.memory_status (psutil_virtual_memory w1)
                       ++ between ++ now_strftime w1 ++ rest)
      /\
      handler w2 args
      = Return (before ++ Report.memory_status (psutil_virtual_memory w2)
                       ++ between ++ now_strftime w2 ++ rest)).
Proof.
  intros (Hpy & Hsys & Harch & Hrun).
  rewrite !handler_render. unfold Report.render.
  assert (Hnode : Report.node_version w2 = Report.node_version w1)
    by (unfold Report.node_version; now rewrite Hrun).
  assert (Hplat : Report.system_platform w2 = Report.system_platform w1)
    by (unfold Report.system_platform; now rewrite Hsys, Harch).
  rewrite Hnode, Hplat, <- Hpy.
  destruct (py_get args "current_workspace_files" _) as [files|e];
    cbn [result_bind]; [|left; exists e; split; reflexivity].
  destruct (py_get args "pending_tasks" _) as [tasks|e];
    cbn [result_bind]; [|left; exists e; split; reflexivity].
  destruct (Report.node_version w1) as [node|e];
    cbn [result_bind]; [|left; exists e; split; reflexivity].
  destruct (Report.bullets _ _ files) as [fb|e];
    cbn [result_bind]; [|left; exists e; split; reflexivity].
  destruct (Report.bullets _ _ tasks) as [tb|e];
    cbn [result_bind]; [|left; exists e; split; reflexivity].
  right.
  exists (Report.opening (Report.system_platform w1) node ++ "- **内存状态**: "),
         (nl ++ "- **当前时间**: "),
         (nl ++ nl ++ Report.capabilities ++ Report.files_section fb
             ++ Report.experience ++ Report.tasks_section tb ++ Report.closing).
  unfold Report.assemble, Report.memory_line, Report.time_line.
  split; f_equal; reassoc; reflexivity.
Qed.

Lemma two_runs_agree_witness :
  Report.same_but_memory_and_clock Sample.host Sample.later
  /\ ((exists e, handler Sample.host Sample.two_files = Raise e
                 /\ handler Sample.later Sample.two_files = Raise e)
      \/
      (exists before between rest,
          handler Sample.host Sample.two_files
          = Return (before ++ Report.memory_status (psutil_virtual_memory Sample.host)
                           ++ between ++ now_strftime Sample.host ++ rest)
          /\
          handler Sample.later Sample.two_files
          = Return (before ++ Report.memory_status (psutil_virtual_memory Sample.later)
                           ++ between ++ now_strftime Sample.later ++ rest))).
Proof.
  assert (H : Report.same_but_memory_and_clock Sample.host Sample.later)
    by (repeat split; reflexivity).
  split; [exact H|].
  exact (two_runs_agree Sample.host Sample.later Sample.two_files H).
Defined.

(** ** The script *)

(** C2 (evaluation at the failing input). Without psutil the import of
    line 1 raises before the [try] of lines 77-81 is reached: the run
    ends on the interpreter's traceback, with status 1, and the
    message of line 80 is not written. *)
Theorem import_failure_is_uncaught (w : world) (stdin : string) :
  psutil_importable w = false ->
  main w stdin = uncaught ModuleNotFoundError.
Proof.
  intros H. unfold main, import_psutil. rewrite H. reflexivity.
Qed.

Lemma import_failure_is_uncaught_witness :
  psutil_importable Sample.bare = false
  /\ main Sample.bare "{}" = uncaught ModuleNotFoundError.
Proof.
  split; [reflexivity|].
  apply (import_failure_is_uncaught Sample.bare "{}"). reflexivity.
Defined.

(** On no host and no input does the script write the message of line
    80. *)
Lemma install_message_never_printed (w : world) (stdin : string) :
  ~ In (Printed ("错误：需要安装psutil包，请运行pip install psutil" ++ nl))
       (to_stderr (main w stdin)).
Proof.
  unfold main, import_psutil.
  destruct (psutil_importable w).
  - destruct (if negb (Json.is_empty (strip stdin)) then _ else _) as [args|].
    + destruct (handler w args) as [r|e].
      * cbn. tauto.
      * destruct (issubclass (exn_type e) Exception); cbn; intros [H|[]]; discriminate H.
    + cbn. intros [H|[]]; discriminate H.
  - cbn. intros [H|[]]; discriminate H.
Qed.

(** White space around the input is removed, and nothing is left of a
    blank input. *)
Lemma drop_spaces_blank (l : list string) :
  forallb is_space l = true -> drop_spaces l = [].
Proof.
  induction l as [|ch l IH]; [reflexivity|].
  cbn [forallb drop_spaces]. intros H. apply andb_prop in H as [Hch Hl].
  rewrite Hch. auto.
Qed.

Lemma strip_blank (s : string) : blank s = true -> strip s = EmptyString.
Proof.
  unfold blank, strip. intros H. now rewrite (drop_spaces_blank _ H).
Qed.

Lemma scan_number_stops (to_float : string -> spec_float) (max_digits : N)
    (s : string) (c : exn_class) :
  Json.scan_number to_float max_digits s = Some (Json.Stop c) -> c = ValueError.
Proof.
  unfold Json.scan_number. intros H.
  repeat match type of H with
    | context [match ?x with _ => _ end] => destruct x
    end; congruence.
Qed.

Lemma decoder_stops (to_float : string -> spec_float) (extended : bool)
    (max_digits : N) (fuel : nat) :
  (forall depth s c,
      Json.scan_once to_float extended max_digits fuel depth s = Json.Stop c ->
      decoder_exception c)
  /\ (forall depth s acc c,
        Json.members to_float extended max_digits fuel depth s acc = Json.Stop c ->
        decoder_exception c)
  /\ (forall depth s acc c,
        Json.elements to_float extended max_digits fuel depth s acc = Json.Stop c ->
        decoder_exception c).
Proof.
  assert (Hj : decoder_exception JSONDecodeError) by (left; reflexivity).
  assert (Hr : decoder_exception RecursionError) by (right; right; reflexivity).
  induction fuel as [|fuel (IHs & IHm & IHe)].
  - repeat split; intros; cbn in *;
      repeat match goal with
        | H : context [match ?x with _ => _ end] |- _ => destruct x
        end; congruence.
  - repeat split.
    + intros depth s c H. cbn [Json.scan_once] in H.
      repeat match type of H with
        | context [match ?x with _ => _ end] => destruct x eqn:?
        end;
        try (injection H as <-; assumption); try discriminate;
        try (eapply IHm; eassumption); try (eapply IHe; eassumption).
      subst. right; left. eapply scan_number_stops; eassumption.
    + intros depth s acc c H. cbn [Json.members] in H.
      repeat match type of H with
        | context [match ?x with _ => _ end] => destruct x eqn:?
        end;
        try (injection H as <-; try assumption); try discriminate;
        try (eapply IHm; eassumption); try (eapply IHs; eassumption).
    + intros depth s acc c H. cbn [Json.elements] in H.
      repeat match type of H with
        | context [match ?x with _ => _ end] => destruct x eqn:?
        end;
        try (injection H as <-; try assumption); try discriminate;
        try (eapply IHe; eassumption); try (eapply IHs; eassumption).
Qed.

Lemma decode_fails (py : interpreter) (s : string) (c : exn_class) :
  Json.decode py s = Json.Fails c -> decoder_exception c.
Proof.
  unfold Json.decode, Json.decode_text. intros H.
  destruct (Json.scan_once _ _ _ _ _ _) as [v rest|e] eqn:E.
  - destruct (Json.is_empty _); [discriminate|]. injection H as <-. left; reflexivity.
  - injection H as <-. eapply (proj1 (decoder_stops _ _ _ _)); exact E.
Qed.

(** C7, as amended. When what is left of the input after [strip()] is
    not empty and [json.loads] raises, which it does with
    [JSONDecodeError], [ValueError] or [RecursionError], nobody
    catches the exception: the run ends on its traceback, with status
    1 and nothing on standard output. *)
Theorem rejected_input_fails (w : world) (stdin : string) (c : exn_class) :
  strip stdin <> EmptyString ->
  Json.decode (python w) (strip stdin) = Json.Fails c ->
  decoder_exception c
  /\ main w stdin
     = uncaught (if psutil_importable w then c else ModuleNotFoundError)
  /\ exit_code (main w stdin) <> 0%Z
  /\ to_stderr (main w stdin) <> [].
Proof.
  intros Hraw Hloads.
  assert (Hmain : main w stdin
                  = uncaught (if psutil_importable w then c else ModuleNotFoundError)).
  { unfold main, import_psutil. destruct (psutil_importable w); [|reflexivity].
    destruct (strip stdin) as [|a raw] eqn:Hs; [congruence|].
    cbn [Json.is_empty negb]. now rewrite Hloads. }
  split; [exact (decode_fails _ _ _ Hloads)|].
  rewrite Hmain. repeat split; cbn; discriminate.
Qed.

Lemma rejected_input_fails_witness :
  (strip " [1, 2" <> EmptyString
   /\ Json.decode (python Sample.host) (strip " [1, 2") = Json.Fails JSONDecodeError
   /\ main Sample.host " [1, 2" = uncaught JSONDecodeError)
  /\ (strip Cases.long_integer <> EmptyString
      /\ Json.decode (python Sample.host) (strip Cases.long_integer)
         = Json.Fails ValueError
      /\ main Sample.host Cases.long_integer = uncaught ValueError)
  /\ (strip Cases.deep_array <> EmptyString
      /\ Json.decode (python Sample.host) (strip Cases.deep_array)
         = Json.Fails RecursionError
      /\ main Sample.host Cases.deep_array = uncaught RecursionError).
Proof.
  assert (H1 : strip " [1, 2" <> EmptyString) by (vm_compute; discriminate).
  assert (H2 : Json.decode (python Sample.host) (strip " [1, 2")
               = Json.Fails JSONDecodeError) by (vm_compute; reflexivity).
  assert (H3 : strip Cases.long_integer <> EmptyString) by (vm_compute; discriminate).
  assert (H4 : Json.decode (python Sample.host) (strip Cases.long_integer)
               = Json.Fails ValueError) by (vm_compute; reflexivity).
  assert (H5 : strip Cases.deep_array <> EmptyString) by (vm_compute; discriminate).
  assert (H6 : Json.decode (python Sample.host) (strip Cases.deep_array)
               = Json.Fails RecursionError) by (vm_compute; reflexivity).
  split; [|split].
  - split; [exact H1|]. split; [exact H2|].
    exact (proj1 (proj2 (rejected_input_fails Sample.host " [1, 2" _ H1 H2))).
  - split; [exact H3|]. split; [exact H4|].
    exact (proj1 (proj2 (rejected_input_fails Sample.host Cases.long_integer _ H3 H4))).
  - split; [exact H5|]. split; [exact H6|].
    exact (proj1 (proj2 (rejected_input_fails Sample.host Cases.deep_array _ H5 H6))).
Defined.

(** C7, as the claim states it, fails in two ways. A single space is
    not empty and is not JSON, yet nothing is left of it after
    [strip()] and the run prints the report of the empty object, with
    status 0. An object that holds [NaN] is not JSON either, yet
    [json.loads] reads it and the run prints a report, with status
    0; so it does on a standard output in UTF-8. *)
Lemma accepted_input_counterexample :
  (" " <> EmptyString
   /\ Json.valid_json " " = false
   /\ main Sample.host " "
      = {| to_stdout := Sample.empty_report ++ nl; to_stderr := []; exit_code := 0 |}
   /\ Script.run Cases.utf8_stdout Sample.host " " = main Sample.host " ")
  /\ (Cases.nan_object <> EmptyString
      /\ Json.valid_json Cases.nan_object = false
      /\ Json.loads (python Sample.host) Cases.nan_object
         = Some (PyDict [("a", PyFloat S754_nan)])
      /\ main Sample.host Cases.nan_object
         = {| to_stdout := Sample.empty_report ++ nl; to_stderr := []; exit_code := 0 |}
      /\ Script.run Cases.utf8_stdout Sample.host Cases.nan_object
         = main Sample.host Cases.nan_object).
Proof.
  repeat split; try discriminate; vm_compute; reflexivity.
Qed.



(** ** The workspace files *)

(** Lines of a text that starts with a line. *)
Lemma lines_acc_one_line (s : string) :
  one_line s = true ->
  forall cur rest, lines_acc cur (s ++ rest) = lines_acc (cur ++ s) rest.
Proof.
  induction s as [|c s IH]; intros Hs cur rest.
  - cbn. now rewrite append_nil_r.
  - cbn [one_line] in Hs. apply andb_prop in Hs as [Hc Hs].
    cbn [append lines_acc]. apply negb_true_iff in Hc. rewrite Hc.
    rewrite (IH Hs). f_equal. rewrite append_assoc. reflexivity.
Qed.

Lemma lines_acc_nl (cur rest : string) :
  lines_acc cur (nl ++ rest) = cur :: lines_acc EmptyString rest.
Proof. reflexivity. Qed.

Lemma lines_line (s rest : string) :
  one_line s = true -> lines (s ++ nl ++ rest) = s :: lines rest.
Proof.
  intros Hs. unfold lines. rewrite (lines_acc_one_line s Hs), lines_acc_nl.
  reflexivity.
Qed.

Lemma one_line_append (a b : string) :
  one_line a = true -> one_line b = true -> one_line (a ++ b) = true.
Proof.
  induction a as [|c a IH]; cbn; [auto|].
  intros Ha Hb. apply andb_prop in Ha as [Hc Ha]. rewrite Hc. cbn. auto.
Qed.

(** The text of a file bullet, without its line feed. *)
Lemma file_bullet_line (path : string) :
  Report.file_bullet path = ("- `" ++ path ++ "`") ++ nl.
Proof. unfold Report.file_bullet. reassoc. reflexivity. Qed.

(** One bullet per path, in order, when no path holds a line feed. *)
Lemma lines_file_bullets (paths : list string) (rest : string) :
  Forall (fun path => one_line path = true) paths ->
  lines (join (map Report.file_bullet paths) ++ rest)
  = List.app (map (fun path => "- `" ++ path ++ "`") paths) (lines rest).
Proof.
  induction 1 as [|path paths Hpath _ IH]; [reflexivity|].
  cbn [map]. rewrite join_cons, file_bullet_line.
  rewrite (append_assoc (_ ++ nl)), (append_assoc _ nl).
  rewrite lines_line.
  - rewrite IH. reflexivity.
  - apply (one_line_append "- `"); [reflexivity|].
    apply one_line_append; [exact Hpath | reflexivity].
Qed.

Lemma filter_bullets (paths : list string) :
  filter (String.prefix "- ") (map (fun path => "- `" ++ path ++ "`") paths)
  = map (fun path => "- `" ++ path ++ "`") paths.
Proof.
  induction paths as [|path paths IH]; [reflexivity|].
  cbn [map filter]. replace (String.prefix "- " ("- `" ++ path ++ "`")) with true.
  - now rewrite IH.
  - cbn. destruct (path ++ "`"); reflexivity.
Qed.

Lemma bullet_lines_files_section (paths : list string) :
  Forall (fun path => one_line path = true) paths ->
  Report.bullet_lines (Report.files_section (join (map Report.file_bullet paths)))
  = map (fun path => "- `" ++ path ++ "`") paths.
Proof.
  intros Hpaths. unfold Report.bullet_lines, Report.files_section.
  rewrite lines_line by reflexivity.
  rewrite lines_file_bullets by exact Hpaths.
  cbn [filter]. replace (String.prefix "- " "## 📂 当前工作区文件") with false by reflexivity.
  rewrite filter_app, filter_bullets. cbn. now rewrite app_nil_r.
Qed.

(** A list of strings is true when it is not empty, a loop visits its
    strings and an f-string writes each as it is. *)
Lemma bullets_str_list (py : interpreter) (bullet : string -> string) (l : list string) :
  l <> [] ->
  Report.bullets py bullet (Report.str_list l) = Return (join (map bullet l)).
Proof.
  intros Hl. unfold Report.bullets, Report.str_list.
  destruct l as [|x l]; [congruence|].
  cbn [py_truthy map py_iter result_bind]. rewrite !map_map. reflexivity.
Qed.

(** C5, as amended. For a non-empty list of [N] paths none of which
    holds a line feed, the files section, which stands between the
    workflow diagram and the experience list, has exactly [N] bullet
    lines: the paths, each between [- `] and [`], in the order of the
    list. *)
Theorem workspace_files_bullets
    (w : world) (entries : list (string * pyval)) (files : list string)
    (report : string) :
  files <> [] ->
  Forall (fun path => one_line path = true) files ->
  lookup "current_workspace_files" entries = Some (Report.str_list files) ->
  handler w (PyDict entries) = Return report ->
  exists before rest section,
    report = before ++ Report.capabilities ++ section ++ Report.experience ++ rest
    /\ section = Report.files_section (join (map Report.file_bullet files))
    /\ Report.bullet_lines section = map (fun path => "- `" ++ path ++ "`") files
    /\ List.length (Report.bullet_lines section) = List.length files.
Proof.
  intros Hne Hlines Hlookup H.
  destruct (handler_returns _ _ _ H)
    as (fv & tv & node & fb & tb & Hf & _ & _ & Hfb & _ & ->).
  cbn [py_get result_bind] in Hf. rewrite Hlookup in Hf. injection Hf as <-.
  rewrite (bullets_str_list _ _ _ Hne) in Hfb. injection Hfb as <-.
  exists (Report.opening (Report.system_platform w) node
          ++ Report.memory_line (Report.memory_status (psutil_virtual_memory w))
          ++ Report.time_line (now_strftime w)),
         (Report.tasks_section tb ++ Report.closing),
         (Report.files_section (join (map Report.file_bullet files))).
  split; [|split; [reflexivity|]].
  - unfold Report.assemble. reassoc. reflexivity.
  - rewrite (bullet_lines_files_section files Hlines), length_map. split; reflexivity.
Qed.

Lemma workspace_files_bullets_witness :
  let files := ["src/a.js"; "README.md"] in
  files <> []
  /\ Forall (fun path => one_line path = true) files
  /\ lookup "current_workspace_files"
       [("current_workspace_files", Report.str_list files)]
     = Some (Report.str_list files)
  /\ handler Sample.host Sample.two_files = Return Sample.two_files_report
  /\ exists before rest section,
      Sample.two_files_report
      = before ++ Report.capabilities ++ section ++ Report.experience ++ rest
      /\ section = Report.files_section (join (map Report.file_bullet files))
      /\ Report.bullet_lines section = ["- `src/a.js`"; "- `README.md`"]
      /\ List.length (Report.bullet_lines section) = 2%nat.
Proof.
  intros files.
  assert (H1 : files <> []) by discriminate.
  assert (H2 : Forall (fun path => one_line path = true) files)
    by (repeat constructor).
  assert (H3 : lookup "current_workspace_files"
                 [("current_workspace_files", Report.str_list files)]
               = Some (Report.str_list files)) by reflexivity.
  assert (H4 : handler Sample.host Sample.two_files = Return Sample.two_files_report)
    by (vm_compute; reflexivity).
  split; [exact H1|]. split; [exact H2|]. split; [exact H3|]. split; [exact H4|].
  exact (workspace_files_bullets Sample.host _ files _ H1 H2 H3 H4).
Defined.

(** C5, as the claim states it, fails on a path that holds a line
    feed: the one path [a], line feed, [- `b] gives a files section
    with two bullet lines, neither of which is the path. *)
Lemma broken_path_counterexample :
  let files := [Sample.broken_path] in
  let section := Report.files_section (join (map Report.file_bullet files)) in
  files <> []
  /\ (exists before rest,
        handler Sample.host Sample.one_broken_file
        = Return (before ++ Report.capabilities ++ section
                         ++ Report.experience ++ rest))
  /\ Report.bullet_lines section = ["- `a"; "- `b`"]
  /\ List.length (Report.bullet_lines section) <> List.length files
  /\ ~ In ("- `" ++ Sample.broken_path ++ "`") (Report.bullet_lines section).
Proof.
  intros files section.
  split; [discriminate|]. split.
  - exists (Report.opening (Report.system_platform Sample.host) "v18.17.0"
            ++ Report.memory_line (Report.memory_status Sample.memory)
            ++ Report.time_line (now_strftime Sample.host)),
           (Report.tasks_section Report.none_bullet ++ Report.closing).
    vm_compute. reflexivity.
  - split; [vm_compute; reflexivity|]. split.
    + vm_compute. discriminate.
    + vm_compute. intros [H|[H|[]]]; discriminate H.
Qed.

(** ** What [handler] does to its input *)

Module HeapFacts.
Import Heap.

Lemma preserving_read {A : Type} (f : heap -> result A) :
  preserving (fun h => (h, f h)).
Proof. intros h. exists []. cbn. now rewrite app_nil_r. Qed.

Lemma preserving_ret {A : Type} (a : A) : preserving (ret a).
Proof. apply (preserving_read (fun _ => Return a)). Qed.

Lemma preserving_host {A : Type} (r : result A) : preserving (host r).
Proof. apply (preserving_read (fun _ => r)). Qed.

Lemma preserving_bind {A B : Type} (m : M A) (k : A -> M B) :
  preserving m -> (forall a, preserving (k a)) -> preserving (bind m k).
Proof.
  intros Hm Hk h. cbn [bind heap_python].
  destruct (Hm h) as (f1 & E1 & F1). destruct (m h) as [h1 [a|e]]; cbn [fst] in E1.
  - destruct (Hk a h1) as (f2 & E2 & F2). exists (f1 ++ f2)%list.
    rewrite E2, E1, app_assoc. split; [reflexivity | now apply Forall_app].
  - exists f1. split; assumption.
Qed.

Lemma preserving_try {A : Type} (m : M A) (classes : list exn_class) (fallback : A) :
  preserving m -> preserving (try_except m classes fallback).
Proof.
  intros Hm h. cbn [try_except heap_python].
  destruct (Hm h) as (f1 & E1 & F1). exists f1.
  destruct (m h) as [h1 [a|e]]; cbn [fst] in E1 |- *; [auto|].
  destruct (existsb _ classes); auto.
Qed.

Lemma preserving_empty_list : preserving (empty_list (M := M) (V := value)).
Proof.
  intros h. exists [OList []]. split; [reflexivity | repeat constructor].
Qed.

Lemma preserving_get (obj : value) (key : string) (default : M value) :
  preserving default -> preserving (get obj key default).
Proof.
  intros Hd h. cbn [get heap_python]. unfold obj_get.
  destruct obj; try (exists []; cbn; now rewrite app_nil_r).
  destruct (deref h l); [exists []; cbn; now rewrite app_nil_r|].
  destruct (Hd h) as (f1 & E1 & F1). exists f1.
  destruct (default h) as [h1 [d|e]]; cbn [fst] in E1 |- *; [|auto].
  destruct (deref h1 l); auto.
Qed.

Lemma preserving_truthy (v : value) : preserving (truthy v).
Proof. apply preserving_read. Qed.

Lemma preserving_iter (v : value) : preserving (iter v).
Proof. apply preserving_read. Qed.

Lemma preserving_format (py : interpreter) (v : value) : preserving (format py v).
Proof. apply preserving_read. Qed.

Lemma preserving_for_each {S A : Type} (body : S -> A -> M S) (items : list A) :
  (forall s x, preserving (body s x)) ->
  forall s, preserving (for_each items body s).
Proof.
  intros Hbody. induction items as [|x items IH]; intros s; cbn [for_each].
  - apply preserving_ret.
  - apply preserving_bind; auto.
Qed.

Ltac preserve :=
  repeat first
    [ apply preserving_ret
    | apply preserving_host
    | apply preserving_empty_list
    | apply preserving_truthy
    | apply preserving_iter
    | apply preserving_format
    | apply preserving_get
    | apply preserving_try
    | apply preserving_for_each; intros ? ?
    | apply preserving_bind; [|intros ?]
    | match goal with
      | |- preserving (if ?b then _ else _) => destruct b
      end
    | progress cbv zeta ].

Lemma preserving_handler (w : world) (args : value) :
  preserving (Heap.run_handler w args).
Proof.
  unfold run_handler, handler. preserve.
Qed.

End HeapFacts.

(** C9. [handler] changes no object: whatever the store holds when it
    is called, the mapping and the lists among it, is there unchanged
    when it returns or raises; the objects added are the empty lists
    built for the defaults of the two [get]. *)
Theorem handler_leaves_input (w : world) (args : Heap.value) (h : Heap.heap) :
  firstn (List.length h) (fst (Heap.run_handler w args h)) = h
  /\ exists fresh,
      fst (Heap.run_handler w args h) = (h ++ fresh)%list
      /\ Forall (fun o => o = Heap.OList []) fresh.
Proof.
  destruct (HeapFacts.preserving_handler w args h) as (fresh & E & F).
  split; [|exists fresh; split; assumption].
  rewrite E, firstn_app, Nat.sub_diag, firstn_all. cbn. apply app_nil_r.
Qed.

(** On a store where both keys hold the same list, the call leaves the
    mapping and the list as they were and adds the two empty lists of
    the defaults. *)
Example shared_list_untouched :
  fst (Heap.run_handler Sample.host (Heap.VRef 0) Sample.shared_store)
  = (Sample.shared_store ++ [Heap.OList []; Heap.OList []])%list.
Proof. vm_compute. reflexivity. Qed.

(** Each object of the store is read the same after the call. *)
Lemma handler_leaves_objects (w : world) (args : Heap.value) (h : Heap.heap) (l : Heap.loc) :
  (l < List.length h)%nat ->
  Heap.deref (fst (Heap.run_handler w args h)) l = Heap.deref h l.
Proof.
  intros Hl. destruct (HeapFacts.preserving_handler w args h) as (fresh & E & _).
  rewrite E. unfold Heap.deref. now rewrite app_nth1.
Qed.

(** ** The store and the trees *)

(** [handler] over a store that holds a tree returns what [handler]
    returns on the tree. *)
Module Refinement.
Import Heap.

(** Induction on trees, with the hypothesis for every item of a list
    and every value of a dict. *)
Lemma pyval_induction (P : pyval -> Prop) :
  P PyNone ->
  (forall b, P (PyBool b)) ->
  (forall z, P (PyInt z)) ->
  (forall f, P (PyFloat f)) ->
  (forall s, P (PyStr s)) ->
  (forall items, Forall P items -> P (PyList items)) ->
  (forall entries, Forall (fun kv => P (snd kv)) entries -> P (PyDict entries)) ->
  forall p, P p.
Proof.
  intros HN HB HI HF HS HL HD.
  fix IH 1. intros [ | b | z | f | s | items | entries].
  - exact HN.
  - apply HB.
  - apply HI.
  - apply HF.
  - apply HS.
  - apply HL. revert items.
    fix IHl 1. intros [|x items]; constructor; [apply IH | apply IHl].
  - apply HD. revert entries.
    fix IHl 1. intros [|[k x] entries]; constructor; [apply IH | apply IHl].
Qed.

Lemma list_sum_bound {A : Type} (f : A -> nat) (x : A) (l : list A) :
  In x l -> (f x <= list_sum (map f l))%nat.
Proof.
  induction l as [|y l IH]; intros Hin; [destruct Hin|].
  simpl. destruct Hin as [->|Hin]; [lia|].
  specialize (IH Hin). lia.
Qed.

Lemma size_item (x : pyval) (items : list pyval) :
  In x items -> (pyval_size x < pyval_size (PyList items))%nat.
Proof.
  intros Hin.
  change (pyval_size (PyList items)) with (S (list_sum (map pyval_size items))).
  pose proof (list_sum_bound pyval_size x items Hin). lia.
Qed.

Lemma size_entry (kv : string * pyval) (entries : list (string * pyval)) :
  In kv entries -> (pyval_size (snd kv) < pyval_size (PyDict entries))%nat.
Proof.
  intros Hin.
  change (pyval_size (PyDict entries))
    with (S (list_sum (map (fun kv => let '(_, x) := kv in pyval_size x) entries))).
  pose proof (list_sum_bound (fun kv => let '(_, x) := kv in pyval_size x) kv entries Hin)
    as H.
  destruct kv as [k x]. cbn [snd] in *. lia.
Qed.

(** Objects are read the same in a longer store. *)
Lemma deref_app (h fresh : heap) (l : loc) :
  (l < List.length h)%nat -> deref (h ++ fresh)%list l = deref h l.
Proof. intros Hl. unfold deref. now rewrite app_nth1. Qed.

(** What a value is, given the tree it holds. *)
Lemma holds_inv (h : heap) (v : value) (p : pyval) :
  holds h v p ->
  match p with
  | PyNone => v = VNone
  | PyBool b => v = VBool b
  | PyInt z => v = VInt z
  | PyFloat f => v = VFloat f
  | PyStr s => v = VStr s
  | PyList ps =>
      exists l items,
        v = VRef l /\ (l < List.length h)%nat /\ deref h l = OList items
        /\ Forall2 (holds h) items ps
  | PyDict ps =>
      exists l entries,
        v = VRef l /\ (l < List.length h)%nat /\ deref h l = ODict entries
        /\ Forall2 (fun e q => fst e = fst q /\ holds h (snd e) (snd q)) entries ps
  end.
Proof.
  intros H. destruct H; try reflexivity.
  - exists l, items. auto.
  - exists l, entries. auto.
Qed.

Lemma holds_app (h fresh : heap) :
  forall p v, holds h v p -> holds (h ++ fresh)%list v p.
Proof.
  induction p as [ | b | z | f | s | ps IH | ps IH] using pyval_induction;
    intros v Hv; apply holds_inv in Hv.
  1-5: subst v; constructor.
  - destruct Hv as (l & items & -> & Hl & Hd & Hall).
    apply holds_list with (items := items).
    + rewrite length_app. lia.
    + now rewrite deref_app.
    + clear Hd. induction Hall as [|x y xs ys Hxy _ IHl]; constructor;
        inversion IH; subst; auto.
  - destruct Hv as (l & entries & -> & Hl & Hd & Hall).
    apply holds_dict with (entries := entries).
    + rewrite length_app. lia.
    + now rewrite deref_app.
    + clear Hd. induction Hall as [|x y xs ys [Hk Hxy] _ IHl]; constructor;
        inversion IH; subst; auto.
Qed.

(** A value holds one tree. *)
Lemma holds_fun (h : heap) :
  forall p v p', holds h v p -> holds h v p' -> p = p'.
Proof.
  induction p as [ | b | z | f | s | ps IH | ps IH] using pyval_induction;
    intros v p' Hv Hv'; apply holds_inv in Hv.
  1-5: subst v; inversion Hv'; reflexivity.
  - destruct Hv as (l & items & -> & Hl & Hd & Hall).
    destruct p'; apply holds_inv in Hv'; try discriminate Hv';
      destruct Hv' as (l' & items' & Heq & _ & Hd' & Hall');
      injection Heq as <-; rewrite Hd in Hd'; [|discriminate Hd'].
    injection Hd' as <-. f_equal. clear Hd. revert items0 Hall'.
    induction Hall as [|x y xs ys Hxy _ IHl]; intros ps' Hall';
      inversion Hall'; subst; [reflexivity|].
    inversion IH; subst. f_equal; eauto.
  - destruct Hv as (l & entries & -> & Hl & Hd & Hall).
    destruct p'; apply holds_inv in Hv'; try discriminate Hv';
      destruct Hv' as (l' & entries' & Heq & _ & Hd' & Hall');
      injection Heq as <-; rewrite Hd in Hd'; [discriminate Hd'|].
    injection Hd' as <-. f_equal. clear Hd. revert entries0 Hall'.
    induction Hall as [|x y xs ys [Hk Hxy] _ IHl]; intros ps' Hall';
      inversion Hall' as [|x' y' xs' ys' [Hk' Hxy'] Hrest]; subst; [reflexivity|].
    inversion IH; subst. f_equal; [|eauto].
    destruct y as [ky py], y' as [ky' py']. cbn in *. f_equal; [congruence|eauto].
Qed.

Lemma nodup_bound (l : list nat) (n : nat) :
  NoDup l -> (forall a, In a l -> (a < n)%nat) -> (List.length l <= n)%nat.
Proof.
  intros Hnd Hlt.
  assert (H : (List.length l <= List.length (seq 0 n))%nat).
  { apply NoDup_incl_length; [exact Hnd|].
    intros a Ha. apply in_seq. specialize (Hlt a Ha). lia. }
  now rewrite length_seq in H.
Qed.

Lemma existsb_eqb_out (l : nat) (visiting : list nat) :
  ~ In l visiting -> existsb (Nat.eqb l) visiting = false.
Proof.
  intros Hout. destruct (existsb (Nat.eqb l) visiting) eqn:E; [|reflexivity].
  apply existsb_exists in E as (a & Ha & Heq). apply Nat.eqb_eq in Heq. now subst.
Qed.

Lemma enclosing_out (h : heap) (visiting : list loc) (l : loc) (p : pyval) :
  enclosing h visiting p -> holds h (VRef l) p -> ~ In l visiting.
Proof.
  intros [_ Henc] Hp Hin. destruct (Henc l Hin) as (_ & pa & Hpa & Hsize).
  rewrite (holds_fun h p (VRef l) pa Hp Hpa) in Hsize. lia.
Qed.

Lemma enclosing_fuel (h : heap) (visiting : list loc) (l : loc) (p : pyval) (fuel : nat) :
  enclosing h visiting p -> holds h (VRef l) p -> (l < List.length h)%nat ->
  (List.length h < fuel + List.length visiting)%nat ->
  exists fuel', fuel = S fuel' /\
                (List.length h < fuel' + List.length (l :: visiting))%nat.
Proof.
  intros Henc Hp Hl Hfuel.
  pose proof (enclosing_out _ _ _ _ Henc Hp) as Hout.
  destruct Henc as [Hnd Henc].
  assert (Hb : (List.length (l :: visiting) <= List.length h)%nat).
  { apply nodup_bound; [constructor; assumption|].
    intros a [<-|Ha]; [exact Hl | apply (Henc a Ha)]. }
  cbn [List.length] in *. destruct fuel as [|fuel']; [lia|].
  exists fuel'. split; [reflexivity | lia].
Qed.

Lemma enclosing_child (h : heap) (visiting : list loc) (l : loc) (p child : pyval) :
  enclosing h visiting p -> holds h (VRef l) p -> (l < List.length h)%nat ->
  (pyval_size child < pyval_size p)%nat ->
  enclosing h (l :: visiting) child.
Proof.
  intros Henc Hp Hl Hsize.
  pose proof (enclosing_out _ _ _ _ Henc Hp) as Hout.
  destruct Henc as [Hnd Henc]. split; [constructor; assumption|].
  intros a [<-|Ha].
  - split; [exact Hl|]. exists p. split; assumption.
  - destruct (Henc a Ha) as (Ha' & pa & Hpa & Hs). split; [exact Ha'|].
    exists pa. split; [exact Hpa | lia].
Qed.

Lemma map_related {A B C : Type} (R : A -> B -> Prop) (F : A -> C) (G : B -> C)
    (xs : list A) (ys : list B) :
  Forall2 R xs ys ->
  (forall x y, In y ys -> R x y -> F x = G y) ->
  map F xs = map G ys.
Proof.
  induction 1 as [|x y xs ys Hxy _ IH]; intros HFG; [reflexivity|].
  cbn [map]. f_equal; [apply HFG; [left; reflexivity | exact Hxy]|].
  apply IH. intros x' y' Hy'. apply HFG. now right.
Qed.

(** [repr] read from the store is [repr] of the tree. *)
Lemma repr_holds (py : interpreter) (h : heap) :
  forall p fuel visiting v,
    holds h v p ->
    enclosing h visiting p ->
    (List.length h < fuel + List.length visiting)%nat ->
    repr py fuel visiting h v = py_repr py p.
Proof.
  induction p as [ | b | z | f | s | ps IH | ps IH] using pyval_induction;
    intros fuel visiting v Hv Henc Hfuel; pose proof Hv as Hv'; apply holds_inv in Hv'.
  1-5: subst v; destruct fuel; reflexivity.
  - destruct Hv' as (l & items & -> & Hl & Hd & Hall).
    destruct (enclosing_fuel _ _ _ _ _ Henc Hv Hl Hfuel) as (fuel' & -> & Hfuel').
    cbn [repr]. rewrite Hd, (existsb_eqb_out _ _ (enclosing_out _ _ _ _ Henc Hv)).
    change (py_repr py (PyList ps))
      with ("[" ++ comma_join (map (py_repr py) ps) ++ "]").
    do 3 f_equal. apply (map_related (holds h)); [exact Hall|].
    intros x y Hy Hxy. rewrite Forall_forall in IH. apply (IH y Hy); [exact Hxy | | exact Hfuel'].
    apply (enclosing_child _ _ _ _ _ Henc Hv Hl), size_item, Hy.
  - destruct Hv' as (l & entries & -> & Hl & Hd & Hall).
    destruct (enclosing_fuel _ _ _ _ _ Henc Hv Hl Hfuel) as (fuel' & -> & Hfuel').
    cbn [repr]. rewrite Hd, (existsb_eqb_out _ _ (enclosing_out _ _ _ _ Henc Hv)).
    change (py_repr py (PyDict ps))
      with ("{" ++ comma_join
                     (map (fun kv => let '(k, x) := kv in
                                     repr_str py k ++ ": " ++ py_repr py x) ps)
                ++ "}").
    do 3 f_equal.
    apply (map_related (fun e q => fst e = fst q /\ holds h (snd e) (snd q)));
      [exact Hall|].
    intros x y Hy [Hk Hxy]. rewrite Forall_forall in IH.
    destruct y as [k p]. cbn [fst snd] in *. rewrite Hk. do 2 f_equal.
    apply (IH (k, p) Hy); [exact Hxy | | exact Hfuel'].
    apply (enclosing_child _ _ _ _ _ Henc Hv Hl), (size_entry (k, p)), Hy.
Qed.

(** The readers of the store agree with the operations on trees. *)
Lemma text_holds (py : interpreter) (h : heap) (v : value) (p : pyval) :
  holds h v p -> text_of py h v = py_format py p.
Proof.
  intros Hv.
  assert (Hr : repr py (S (List.length h)) [] h v = py_repr py p).
  { apply repr_holds; [exact Hv | | cbn; lia].
    split; [constructor | intros a []]. }
  destruct Hv; try exact Hr. reflexivity.
Qed.

Lemma type_name_holds (h : heap) (v : value) (p : pyval) :
  holds h v p -> type_name_in h v = type_name p.
Proof.
  intros Hv. destruct Hv as [ | | | | |l items ps _ Hd _|l entries ps _ Hd _];
    cbn [type_name_in type_name]; try reflexivity; now rewrite Hd.
Qed.

Lemma truth_holds (h : heap) (v : value) (p : pyval) :
  holds h v p -> truth h v = py_truthy p.
Proof.
  intros Hv. destruct Hv as [ | | | | |l items ps _ Hd Hall|l entries ps _ Hd Hall];
    cbn [truth py_truthy]; try reflexivity; rewrite Hd; destruct Hall; reflexivity.
Qed.

Lemma items_holds (h : heap) (v : value) (p : pyval) :
  holds h v p -> agree (Forall2 (holds h)) (items_of h v) (py_iter p).
Proof.
  intros Hv. pose proof (type_name_holds h v p Hv) as Hty.
  destruct Hv as [ | | | | s |l items ps _ Hd Hall|l entries ps _ Hd Hall];
    cbn [items_of py_iter agree]; try (now rewrite Hty).
  - induction (chars s); cbn [map]; [constructor|].
    constructor; [constructor | assumption].
  - now rewrite Hd.
  - rewrite Hd. cbn [agree]. clear Hd Hty.
    induction Hall as [|x y xs ys [Hk _] _ IH]; cbn [map]; [constructor|].
    constructor; [rewrite Hk; constructor | exact IH].
Qed.

Lemma bullets_holds (py : interpreter) (bullet : string -> string)
    (h : heap) (v : value) (p : pyval) :
  holds h v p -> bullets_in py bullet h v = Report.bullets py bullet p.
Proof.
  intros Hv. unfold bullets_in, Report.bullets.
  rewrite (truth_holds h v p Hv). destruct (py_truthy p); [|reflexivity].
  pose proof (items_holds h v p Hv) as Hitems.
  destruct (items_of h v) as [vs|e], (py_iter p) as [ps|e']; cbn [agree] in Hitems;
    try contradiction; cbn [result_bind]; [|now subst].
  do 2 f_equal. apply (map_related (holds h)); [exact Hitems|].
  intros x y _ Hxy. now rewrite (text_holds py h x y Hxy).
Qed.

Lemma extended_refl (h : heap) : extended h h.
Proof. exists []. split; [now rewrite app_nil_r | constructor]. Qed.

Lemma extended_trans (h1 h2 h3 : heap) :
  extended h1 h2 -> extended h2 h3 -> extended h1 h3.
Proof.
  intros (f1 & -> & F1) (f2 & -> & F2). exists (f1 ++ f2)%list.
  split; [now rewrite app_assoc | now apply Forall_app].
Qed.

Lemma holds_extended (h h' : heap) (v : value) (p : pyval) :
  extended h h' -> holds h v p -> holds h' v p.
Proof. intros (fresh & -> & _). apply holds_app. Qed.

Lemma simulates_ret {A B : Type} (R : heap -> A -> B -> Prop) (a : A) (b : B) (h : heap) :
  R h a b -> simulates R (ret a) (ret b) h.
Proof. intros HR. split; [apply extended_refl | exact HR]. Qed.

Lemma simulates_bind {A B A' B' : Type}
    (R : heap -> A -> B -> Prop) (S : heap -> A' -> B' -> Prop)
    (m : M A) (t : result B) (k : A -> M A') (kt : B -> result B') (h : heap) :
  simulates R m t h ->
  (forall h' a b, extended h h' -> R h' a b -> simulates S (k a) (kt b) h') ->
  simulates S (bind m k) (bind t kt) h.
Proof.
  intros [Hext Hag] Hk. unfold simulates. cbn [bind heap_python tree_python].
  destruct (m h) as [h1 [a|e]], t as [b|e']; cbn [fst snd agree] in *; try contradiction.
  - destruct (Hk h1 a b Hext Hag) as [Hext' Hag']. cbn [result_bind].
    split; [eapply extended_trans; eassumption | exact Hag'].
  - subst e'. split; [exact Hext | reflexivity].
Qed.

Lemma simulates_host {A : Type} (r : result A) (h : heap) :
  simulates same (host r) (host r) h.
Proof.
  split; [apply extended_refl|]. cbn. destruct r; reflexivity.
Qed.

Lemma simulates_try {A : Type} (m : M A) (t : result A)
    (classes : list exn_class) (fallback : A) (h : heap) :
  simulates same m t h ->
  simulates same (try_except m classes fallback) (try_except t classes fallback) h.
Proof.
  intros [Hext Hag]. unfold simulates. cbn [try_except heap_python tree_python].
  destruct (m h) as [h1 [a|e]], t as [b|e']; cbn [fst snd agree result_try] in *;
    try contradiction.
  - split; assumption.
  - subst e'. destruct (existsb _ classes); split; try assumption; reflexivity.
Qed.

Lemma find_holds (h : heap) (key : string)
    (entries : list (string * value)) (ps : list (string * pyval)) :
  Forall2 (fun e q => fst e = fst q /\ holds h (snd e) (snd q)) entries ps ->
  match find key entries, lookup key ps with
  | Some v, Some p => holds h v p
  | None, None => True
  | _, _ => False
  end.
Proof.
  induction 1 as [|[k v] [k' p] entries ps [Hk Hv] _ IH]; cbn [find lookup]; [exact I|].
  cbn [fst snd] in *. subst k'. destruct (String.eqb k key); [exact Hv | exact IH].
Qed.

Lemma deref_new (h : heap) (o : object) : deref (h ++ [o])%list (List.length h) = o.
Proof. unfold deref. rewrite app_nth2, Nat.sub_diag; [reflexivity | lia]. Qed.

Lemma simulates_get (v : value) (p : pyval) (key : string) (h : heap) :
  holds h v p ->
  simulates holds (get v key empty_list) (get p key empty_list) h.
Proof.
  intros Hv. pose proof (type_name_holds h v p Hv) as Hty.
  unfold simulates. cbn [get empty_list heap_python tree_python]. unfold obj_get, no_get.
  destruct Hv as [ | | | | |l items ps Hl Hd Hall|l entries ps Hl Hd Hall];
    cbn [fst snd py_get agree];
    try (split; [apply extended_refl | now rewrite Hty]).
  - rewrite Hd. cbn [fst snd agree]. split; [apply extended_refl | now rewrite Hty].
  - rewrite Hd. cbn [new fst snd]. rewrite (deref_app h _ l Hl), Hd. cbn [fst snd result_bind agree].
    assert (Hext : extended h (h ++ [OList []])%list)
      by (exists [OList []]; split; [reflexivity | repeat constructor]).
    split; [exact Hext|].
    pose proof (find_holds h key entries ps Hall) as Hfind.
    destruct (find key entries) as [x|], (lookup key ps) as [q|]; try contradiction.
    + apply (holds_extended h); assumption.
    + apply holds_list with (items := []).
      * rewrite length_app. cbn. lia.
      * apply deref_new.
      * constructor.
Qed.

Lemma simulates_truthy (v : value) (p : pyval) (h : heap) :
  holds h v p -> simulates same (truthy v) (truthy p) h.
Proof.
  intros Hv. split; [apply extended_refl|]. cbn. apply truth_holds, Hv.
Qed.

Lemma simulates_iter (v : value) (p : pyval) (h : heap) :
  holds h v p -> simulates (fun h => Forall2 (holds h)) (iter v) (iter p) h.
Proof.
  intros Hv. split; [apply extended_refl|]. cbn. apply items_holds, Hv.
Qed.

Lemma simulates_format (py : interpreter) (v : value) (p : pyval) (h : heap) :
  holds h v p -> simulates same (format py v) (format py p) h.
Proof.
  intros Hv. split; [apply extended_refl|]. cbn. apply text_holds, Hv.
Qed.

Lemma simulates_for_each {S : Type}
    (body : S -> value -> M S) (bodyt : S -> pyval -> result S)
    (items : list value) (ps : list pyval) (h : heap) :
  (forall h' s x y, holds h' x y -> simulates same (body s x) (bodyt s y) h') ->
  Forall2 (holds h) items ps ->
  forall s, simulates same (for_each items body s) (for_each ps bodyt s) h.
Proof.
  intros Hbody Hall.
  assert (Hgen : forall h', extended h h' ->
            forall s, simulates same (for_each items body s) (for_each ps bodyt s) h');
    [|intros s; apply Hgen, extended_refl].
  induction Hall as [|x y xs ys Hxy Hall IH]; intros h' Hext s; cbn [for_each].
  - apply simulates_ret. reflexivity.
  - eapply simulates_bind; [apply Hbody, (holds_extended h), Hxy; exact Hext|].
    intros h2 a b Hext2 ->. apply IH. eapply extended_trans; eassumption.
Qed.

(** [handler] over a store that holds the tree [p] at [args] only
    extends the store with the empty lists of the defaults, and raises
    or returns what [handler] does on [p]. *)
Lemma handler_simulates (w : world) (args : value) (p : pyval) (h : heap) :
  holds h args p ->
  simulates same (run_handler w args) (handler w p) h.
Proof.
  intros Hargs. unfold run_handler, handler.
  eapply simulates_bind; [apply simulates_get, Hargs|].
  intros h1 files pfiles Hext1 Hfiles.
  eapply simulates_bind;
    [apply simulates_get, (holds_extended h); [exact Hext1 | exact Hargs]|].
  intros h2 tasks ptasks Hext2 Htasks. cbv zeta.
  eapply simulates_bind.
  { apply simulates_try. eapply simulates_bind; [apply simulates_host|].
    intros h3 a b _ ->. apply simulates_ret. reflexivity. }
  intros h3 node node' Hext3 ->.
  eapply simulates_bind;
    [apply simulates_truthy, (holds_extended h1); [|exact Hfiles];
     eapply extended_trans; eassumption|].
  intros h4 listed listed' Hext4 ->.
  eapply simulates_bind.
  { destruct listed'.
    - eapply simulates_bind;
        [apply simulates_iter, (holds_extended h1); [|exact Hfiles];
         repeat (eapply extended_trans; [eassumption|]); apply extended_refl|].
      intros h5 items pitems Hext5 Hitems.
      apply simulates_for_each; [|exact Hitems].
      intros h' s x y Hxy.
      eapply simulates_bind; [apply simulates_format, Hxy|].
      intros h6 a b _ ->. apply simulates_ret. reflexivity.
    - apply simulates_ret. reflexivity. }
  intros h5 report report' Hext5 ->.
  eapply simulates_bind;
    [apply simulates_truthy, (holds_extended h2); [|exact Htasks];
     repeat (eapply extended_trans; [eassumption|]); apply extended_refl|].
  intros h6 pending pending' Hext6 ->.
  eapply simulates_bind.
  { destruct pending'.
    - eapply simulates_bind;
        [apply simulates_iter, (holds_extended h2); [|exact Htasks];
         repeat (eapply extended_trans; [eassumption|]); apply extended_refl|].
      intros h7 items pitems Hext7 Hitems.
      apply simulates_for_each; [|exact Hitems].
      intros h' s x y Hxy.
      eapply simulates_bind; [apply simulates_format, Hxy|].
      intros h8 a b _ ->. apply simulates_ret. reflexivity.
    - apply simulates_ret. reflexivity. }
  intros h7 final final' Hext7 ->.
  apply simulates_ret. reflexivity.
Qed.

End Refinement.

(** X14. [handler] over the store raises or returns what it does on
    the tree the store holds, and leaves the store as it was, followed
    by the empty lists of the defaults: objects shared between the two
    keys, or within a list, make no difference. *)
Lemma store_handler_refines (w : world) (args : Heap.value) (p : pyval) (h : Heap.heap) :
  Heap.holds h args p ->
  exists fresh,
    Heap.run_handler w args h = ((h ++ fresh)%list, handler w p)
    /\ Forall (fun o => o = Heap.OList []) fresh.
Proof.
  intros Hargs.
  destruct (Refinement.handler_simulates w args p h Hargs) as [(fresh & E & F) Hag].
  exists fresh. split; [|exact F].
  destruct (Heap.run_handler w args h) as [h' r]. cbn [fst snd] in *. subst h'.
  f_equal. unfold Heap.agree, Heap.same in Hag.
  destruct r, (handler w p); try contradiction; now subst.
Qed.

(** ** The decoder never runs out of fuel *)

Module JsonFacts.
Import Json.

Ltac break_match :=
  match goal with
  | H : context [match ?x with _ => _ end] |- _ => destruct x eqn:?
  | |- context [match ?x with _ => _ end] => destruct x eqn:?
  end.

Lemma skip_ws_length (s : string) :
  (String.length (skip_ws s) <= String.length s)%nat.
Proof.
  induction s as [|c s IH]; cbn [skip_ws]; [lia|].
  destruct (is_ws c); cbn [String.length] in *; lia.
Qed.

Lemma expect_length (lit s r : string) :
  expect lit s = Some r ->
  (String.length r + String.length lit = String.length s)%nat.
Proof.
  revert s. induction lit as [|a lit IH]; intros s H.
  - cbn in H. injection H as ->. cbn. lia.
  - destruct s as [|b s]; [discriminate|]. cbn [expect] in H.
    destruct (Ascii.eqb a b); [|discriminate].
    apply IH in H. cbn [String.length]. lia.
Qed.

Lemma take_digits_length (s d r : string) :
  take_digits s = (d, r) -> (String.length r <= String.length s)%nat.
Proof.
  revert d r. induction s as [|c s IH]; intros d r H; cbn [take_digits] in H.
  - injection H as <- <-. cbn. lia.
  - destruct (is_digit c).
    + destruct (take_digits s) as [d' r'] eqn:E. injection H as <- <-.
      specialize (IH _ _ eq_refl). cbn [String.length]. lia.
    + injection H as <- <-. lia.
Qed.

Lemma hex4_length (s r : string) (n : N) :
  hex4 s = Some (n, r) -> (String.length r + 4 = String.length s)%nat.
Proof.
  unfold hex4. intros H. repeat break_match; try discriminate.
  injection H as <- <-. cbn [String.length]. lia.
Qed.

Lemma scan_string_length (fuel : nat) :
  forall s acc t r,
    scan_string fuel s acc = Some (t, r) ->
    (String.length r < String.length s)%nat.
Proof.
  induction fuel as [|fuel IH]; intros s acc t r H; [discriminate|].
  cbn [scan_string] in H. destruct s as [|c s]; [discriminate|].
  cbn [String.length].
  repeat break_match; try discriminate;
    repeat match goal with
      | E : hex4 _ = Some _ |- _ => apply hex4_length in E
      | E : expect _ _ = Some _ |- _ => apply expect_length in E
      | E : scan_string fuel _ _ = Some _ |- _ => apply IH in E
      end;
    try (injection H as <- <-); cbn [String.length] in *; try lia.
Qed.

Lemma string_body_length (s t r : string) :
  string_body s = Some (t, r) -> (String.length r < String.length s)%nat.
Proof. apply scan_string_length. Qed.

Lemma scan_number_length (to_float : string -> spec_float) (max_digits : N)
    (s r : string) (v : pyval) :
  scan_number to_float max_digits s = Some (Read v r) ->
  (String.length r < String.length s)%nat.
Proof.
  unfold scan_number. intros H.
  repeat break_match; try discriminate;
    repeat match goal with
      | E : (_, _) = (_, _) |- _ => inversion E; clear E
      | E : take_digits _ = (_, _) |- _ => apply take_digits_length in E
      end;
    inversion H; subst; cbn [String.length] in *; lia.
Qed.

Ltac use_lengths IH :=
  repeat match goal with
    | E : (_, _) = (_, _) |- _ => inversion E; clear E; subst
    | E : Some _ = Some _ |- _ => inversion E; clear E; subst
    | E : Read _ _ = Read _ _ |- _ => inversion E; clear E; subst
    | E : string_body _ = Some _ |- _ => apply string_body_length in E
    | E : scan_number _ _ _ = Some (Read _ _) |- _ => apply scan_number_length in E
    | E : expect _ _ = Some _ |- _ => apply expect_length in E
    | E : scan_once _ _ _ _ _ _ = Read _ _ |- _ => apply IH in E
    | E : members _ _ _ _ _ _ _ = Read _ _ |- _ => apply IH in E
    | E : elements _ _ _ _ _ _ _ = Read _ _ |- _ => apply IH in E
    | E : skip_ws ?s = _ |- _ =>
        let L := fresh "L" in
        pose proof (skip_ws_length s) as L; rewrite E in L; clear E
    end;
  repeat match goal with
    | H : context [String.length (skip_ws ?s)] |- _ =>
        lazymatch goal with
        | _ : (String.length (skip_ws s) <= String.length s)%nat |- _ => fail
        | _ => pose proof (skip_ws_length s)
        end
    | |- context [String.length (skip_ws ?s)] =>
        lazymatch goal with
        | _ : (String.length (skip_ws s) <= String.length s)%nat |- _ => fail
        | _ => pose proof (skip_ws_length s)
        end
    end.

Section Facts.

Variable to_float : string -> spec_float.
Variable extended : bool.
Variable max_digits : N.

Local Abbreviation scan_once := (scan_once to_float extended max_digits).
Local Abbreviation members := (members to_float extended max_digits).
Local Abbreviation elements := (elements to_float extended max_digits).

Ltac refold_in H :=
  fold (Json.scan_once to_float extended max_digits) in H;
  fold (Json.members to_float extended max_digits) in H;
  fold (Json.elements to_float extended max_digits) in H.

Ltac refold :=
  fold (Json.scan_once to_float extended max_digits);
  fold (Json.members to_float extended max_digits);
  fold (Json.elements to_float extended max_digits).

(** Every successful call of the decoder consumes input. *)
Lemma decoder_consumes (fuel : nat) :
  (forall depth s v r, scan_once fuel depth s = Read v r ->
                       (String.length r < String.length s)%nat)
  /\ (forall depth s acc v r, members fuel depth s acc = Read v r ->
                              (String.length r < String.length s)%nat)
  /\ (forall depth s acc v r, elements fuel depth s acc = Read v r ->
                              (String.length r < String.length s)%nat).
Proof.
  induction fuel as [|fuel (IHs & IHm & IHe)].
  - repeat split; intros; discriminate.
  - repeat split.
    + intros depth s v r H. cbn [Json.scan_once] in H; refold_in H.
      destruct s as [|c s]; [discriminate|].
      repeat break_match; try discriminate; subst;
        use_lengths IHs; use_lengths IHm; use_lengths IHe;
        subst; cbn [String.length] in *; lia.
    + intros depth s acc v r H. cbn [Json.members] in H; refold_in H.
      destruct s as [|c s]; [discriminate|].
      repeat break_match; try discriminate; subst;
        use_lengths IHs; use_lengths IHm; use_lengths IHe;
        subst; cbn [String.length] in *; lia.
    + intros depth s acc v r H. cbn [Json.elements] in H; refold_in H.
      repeat break_match; try discriminate; subst;
        use_lengths IHs; use_lengths IHm; use_lengths IHe;
        subst; cbn [String.length] in *; lia.
Qed.

Lemma scan_once_consumes (fuel depth : nat) (s r : string) (v : pyval) :
  scan_once fuel depth s = Read v r -> (String.length r < String.length s)%nat.
Proof. apply (decoder_consumes fuel). Qed.

Lemma members_consumes (fuel depth : nat) (s r : string)
    (acc : list (string * pyval)) (v : pyval) :
  members fuel depth s acc = Read v r -> (String.length r < String.length s)%nat.
Proof. apply (decoder_consumes fuel). Qed.

Lemma elements_consumes (fuel depth : nat) (s r : string)
    (acc : list pyval) (v : pyval) :
  elements fuel depth s acc = Read v r -> (String.length r < String.length s)%nat.
Proof. apply (decoder_consumes fuel). Qed.

Ltac lengths :=
  repeat match goal with
    | E : scan_once _ _ _ = Read _ _ |- _ => apply scan_once_consumes in E
    | E : members _ _ _ _ = Read _ _ |- _ => apply members_consumes in E
    | E : elements _ _ _ _ = Read _ _ |- _ => apply elements_consumes in E
    end;
  use_lengths I;
  subst; cbn [String.length] in *.

Ltac fuel_step f f' IHs IHm IHe :=
  match goal with
  | |- context [Json.scan_once to_float extended max_digits f ?d ?x] =>
      rewrite (IHs f' d x) by (lengths; lia)
  | |- context [Json.members to_float extended max_digits f ?d ?x ?acc] =>
      rewrite (IHm f' d x acc) by (lengths; lia)
  | |- context [Json.elements to_float extended max_digits f ?d ?x ?acc] =>
      rewrite (IHe f' d x acc) by (lengths; lia)
  | |- context [match ?x with _ => _ end] => destruct x eqn:?
  end.

(** With twice the length of the input, and one or two more, the
    result of the decoder does not depend on the fuel. *)
Lemma decoder_stable (fuel : nat) :
  forall fuel',
    (forall depth s, (2 * String.length s + 1 <= fuel)%nat ->
                     (2 * String.length s + 1 <= fuel')%nat ->
                     scan_once fuel depth s = scan_once fuel' depth s)
    /\ (forall depth s acc, (2 * String.length s + 2 <= fuel)%nat ->
                            (2 * String.length s + 2 <= fuel')%nat ->
                            members fuel depth s acc = members fuel' depth s acc)
    /\ (forall depth s acc, (2 * String.length s + 2 <= fuel)%nat ->
                            (2 * String.length s + 2 <= fuel')%nat ->
                            elements fuel depth s acc = elements fuel' depth s acc).
Proof.
  induction fuel as [|f IH]; intros fuel'.
  - repeat split; intros; lia.
  - assert (IHs := fun f' => proj1 (IH f')).
    assert (IHm := fun f' => proj1 (proj2 (IH f'))).
    assert (IHe := fun f' => proj2 (proj2 (IH f'))).
    clear IH. destruct fuel' as [|f']; [repeat split; intros; lia|].
    repeat split.
    + intros depth s Hf Hf'. cbn [Json.scan_once]; refold.
      destruct s as [|c s]; [reflexivity|].
      cbn [String.length] in *.
      repeat fuel_step f f' IHs IHm IHe; reflexivity.
    + intros depth s acc Hf Hf'. cbn [Json.members]; refold.
      destruct s as [|c s]; [reflexivity|].
      cbn [String.length] in *.
      repeat fuel_step f f' IHs IHm IHe; reflexivity.
    + intros depth s acc Hf Hf'. cbn [Json.elements]; refold.
      repeat fuel_step f f' IHs IHm IHe; reflexivity.
Qed.

End Facts.

End JsonFacts.

(** The fuel [json.loads] gives its decoder is enough: with any larger
    amount the decoder reads the same value, or raises the same. *)
Lemma loads_fuel_is_enough (py : interpreter) (s : string) (fuel : nat) :
  (2 * String.length s + 2 <= fuel)%nat ->
  Json.scan_once (float_of_literal py) true (int_max_str_digits py) fuel
    (json_max_nesting py) (Json.skip_ws s)
  = Json.scan_once (float_of_literal py) true (int_max_str_digits py)
      (2 * String.length s + 2) (json_max_nesting py) (Json.skip_ws s).
Proof.
  intros Hfuel. pose proof (JsonFacts.skip_ws_length s) as Hs.
  apply (JsonFacts.decoder_stable _ _ _ fuel); lia.
Qed.

(** ** The other bounded recursions *)

Lemma take_continuation_length (s : string) :
  (String.length (snd (take_continuation s)) <= String.length s)%nat.
Proof.
  induction s as [|c s IH]; simpl; [lia|].
  destruct (is_continuation c); simpl; [|lia].
  destruct (take_continuation s); simpl in *; lia.
Qed.

(** [chars] has fuel for every character of the text. *)
Lemma chars_fuel_is_enough (fuel : nat) :
  forall s, (String.length s <= fuel)%nat -> chars_fuel fuel s = chars s.
Proof.
  unfold chars.
  assert (H : forall f f' s, (String.length s <= f)%nat -> (String.length s <= f')%nat ->
                             chars_fuel f s = chars_fuel f' s).
  { induction f as [|f IH]; intros f' s Hf Hf'.
    - destruct s; [|cbn in Hf; lia]. destruct f'; reflexivity.
    - destruct s as [|c s]; [destruct f'; reflexivity|].
      destruct f' as [|f']; [cbn in Hf'; lia|]. cbn [chars_fuel].
      pose proof (take_continuation_length s) as Hlen.
      destruct (take_continuation s) as [k r]. cbn [snd String.length] in *.
      f_equal. apply IH; lia. }
  intros s Hs. apply H; [exact Hs | lia].
Qed.

(** The body of a JSON string is read with fuel for each of its
    characters. *)
Lemma scan_string_fuel_is_enough (fuel : nat) :
  forall fuel' s acc,
    (String.length s <= fuel)%nat -> (String.length s <= fuel')%nat ->
    Json.scan_string fuel s acc = Json.scan_string fuel' s acc.
Proof.
  induction fuel as [|f IH]; intros f' s acc Hf Hf'.
  - destruct s; [|cbn in Hf; lia]. destruct f'; reflexivity.
  - destruct s as [|c s]; [destruct f'; reflexivity|].
    destruct f' as [|f']; [cbn in Hf'; lia|]. cbn [Json.scan_string String.length] in *.
    repeat match goal with
      | |- context [Json.scan_string f ?x ?a] =>
          rewrite (IH f' x a)
            by (repeat match goal with
                  | E : Json.hex4 _ = Some _ |- _ => apply JsonFacts.hex4_length in E
                  | E : Json.expect _ _ = Some _ |- _ => apply JsonFacts.expect_length in E
                  end; subst; cbn [String.length] in *; lia)
      | |- context [match ?x with _ => _ end] => destruct x eqn:?
      end; reflexivity.
Qed.

(** No class is more than four steps below [BaseException]. *)
Lemma issubclass_fuel_is_enough (n : nat) (c d : exn_class) :
  issubclass_fuel (4 + n) c d = issubclass c d.
Proof.
  destruct c, d; cbn; try reflexivity; destruct n; reflexivity.
Qed.


(** * More of the script *)

(** ** The run, step by step *)

(** With psutil at hand and an input that is decoded, a run is the
    call of [handler] under [try]. *)
Lemma main_steps (w : world) (stdin : string) (args : pyval) :
  psutil_importable w = true ->
  Script.input w stdin = Some args ->
  main w stdin = Script.report_or_fail w args.
Proof.
  intros H. unfold main, import_psutil, Script.input, Script.report_or_fail, Json.loads.
  rewrite H. destruct (negb (Json.is_empty (strip stdin))).
  - destruct (Json.decode (python w) (strip stdin)); [|discriminate].
    now intros [= ->].
  - now intros [= <-].
Qed.

(** [main] is the script on a standard output that takes every text. *)
Lemma main_is_run (w : world) (stdin : string) :
  main w stdin = Script.run (fun _ => None) w stdin.
Proof.
  unfold main, Script.run, Script.report_or_fail_on.
  destruct (import_psutil w); [|reflexivity].
  destruct (if negb (Json.is_empty (strip stdin)) then _ else _) as [args|c];
    [|reflexivity].
  destruct (handler w args); reflexivity.
Qed.

(** [handler] on an object that is not a mapping. *)
Lemma render_non_mapping (w : world) (args : pyval) :
  Script.is_dict args = false ->
  Report.render w args
  = Raise {| exn_type := AttributeError;
             exn_text := "'" ++ type_name args ++ "' object has no attribute 'get'" |}.
Proof.
  intros H. unfold Report.render. destruct args; try discriminate H; reflexivity.
Qed.

(** X1. Called on anything but a mapping, [handler] raises
    [AttributeError] at its first line, whatever the host: the probe
    is not even run. *)
Theorem handler_rejects_non_mapping (w : world) (args : pyval) :
  Script.is_dict args = false ->
  handler w args
  = Raise {| exn_type := AttributeError;
             exn_text := "'" ++ type_name args ++ "' object has no attribute 'get'" |}.
Proof.
  intros H. rewrite handler_render. apply render_non_mapping, H.
Qed.

Lemma handler_rejects_non_mapping_witness :
  Script.is_dict (PyList [PyStr "a.md"]) = false
  /\ handler (Sample.with_probe (Raise Sample.timed_out)) (PyList [PyStr "a.md"])
     = Raise {| exn_type := AttributeError;
                exn_text := "'list' object has no attribute 'get'" |}.
Proof.
  split; [reflexivity|].
  apply (handler_rejects_non_mapping
           (Sample.with_probe (Raise Sample.timed_out)) (PyList [PyStr "a.md"])).
  reflexivity.
Defined.

(** X2. A JSON text that is not an object (an array, a number, a
    string, [null]) ends the run with status 1, nothing on standard
    output and the failure message of line 89 around the text of the
    [AttributeError]. *)
Theorem non_object_input_fails (w : world) (stdin : string) (args : pyval) :
  psutil_importable w = true ->
  strip stdin <> EmptyString ->
  Json.loads (python w) (strip stdin) = Some args ->
  Script.is_dict args = false ->
  main w stdin
  = {| to_stdout := EmptyString;
       to_stderr := [Printed ("生成状态报告失败：'" ++ type_name args
                              ++ "' object has no attribute 'get'" ++ nl)];
       exit_code := 1 |}.
Proof.
  intros Himport Hraw Hloads Hdict.
  assert (Hinput : Script.input w stdin = Some args).
  { unfold Script.input. destruct (strip stdin) as [|c raw] eqn:Hs; [congruence|].
    exact Hloads. }
  rewrite (main_steps w stdin args Himport Hinput). unfold Script.report_or_fail.
  rewrite handler_render, (render_non_mapping w args Hdict).
  cbn [exn_type exn_text]. unfold fail_with. rewrite !append_assoc. reflexivity.
Qed.

Lemma non_object_input_fails_witness :
  psutil_importable Sample.host = true
  /\ strip " [1, 2] " <> EmptyString
  /\ Json.loads (python Sample.host) (strip " [1, 2] ") = Some (PyList [PyInt 1; PyInt 2])
  /\ Script.is_dict (PyList [PyInt 1; PyInt 2]) = false
  /\ main Sample.host " [1, 2] "
     = {| to_stdout := EmptyString;
          to_stderr := [Printed ("生成状态报告失败：'list' object has no attribute 'get'"
                                 ++ nl)];
          exit_code := 1 |}.
Proof.
  assert (H1 : psutil_importable Sample.host = true) by reflexivity.
  assert (H2 : strip " [1, 2] " <> EmptyString) by (vm_compute; discriminate).
  assert (H3 : Json.loads (python Sample.host) (strip " [1, 2] ")
               = Some (PyList [PyInt 1; PyInt 2])) by (vm_compute; reflexivity).
  assert (H4 : Script.is_dict (PyList [PyInt 1; PyInt 2]) = false) by reflexivity.
  split; [exact H1|]. split; [exact H2|]. split; [exact H3|]. split; [exact H4|].
  exact (non_object_input_fails Sample.host " [1, 2] " _ H1 H2 H3 H4).
Defined.

(** X3. On a standard output that takes the text or raises, a run
    ends in one of two ways: with status 0, the report of [handler]
    and a line feed on standard output and nothing on standard error,
    which takes an input that is decoded, a call of [handler] that
    returns and a report that standard output takes; or with status
    1, nothing on standard output and one message or traceback on
    standard error. It never writes to both streams. *)
Theorem run_outcomes (print : Script.printer) (w : world) (stdin : string) :
  (exit_code (Script.run print w stdin) = 0%Z
   /\ to_stderr (Script.run print w stdin) = []
   /\ exists args report,
       psutil_importable w = true
       /\ Script.input w stdin = Some args
       /\ handler w args = Return report
       /\ print report = None
       /\ to_stdout (Script.run print w stdin) = report ++ nl)
  \/
  (exit_code (Script.run print w stdin) = 1%Z
   /\ to_stdout (Script.run print w stdin) = EmptyString
   /\ exists item, to_stderr (Script.run print w stdin) = [item]).
Proof.
  unfold Script.run, import_psutil, Script.input, Json.loads.
  destruct (psutil_importable w) eqn:Himport.
  - destruct (if negb (Json.is_empty (strip stdin)) then _ else _)
      as [args|c] eqn:Hin.
    + unfold Script.report_or_fail_on.
      destruct (handler w args) as [report|e] eqn:Hh; cbn [result_bind].
      * destruct (print report) as [e|] eqn:Hp.
        -- right. destruct (issubclass (exn_type e) Exception);
             repeat split; eexists; reflexivity.
        -- left. repeat split. exists args, report. repeat split; try assumption.
           destruct (negb (Json.is_empty (strip stdin))).
           ++ now rewrite Hin.
           ++ now injection Hin as <-.
      * right. destruct (issubclass (exn_type e) Exception);
          repeat split; eexists; reflexivity.
    + right. repeat split. eexists; reflexivity.
  - right. repeat split. eexists; reflexivity.
Qed.

(** A task made of a lone surrogate is decoded and listed, and a
    standard output in UTF-8 refuses the report: the run ends with
    status 1 and the message of line 89. On a standard output that
    takes every text the report is printed. *)
Lemma surrogate_task_is_refused :
  Script.run Cases.utf8_stdout Sample.host Cases.surrogate_task
  = fail_with ("生成状态报告失败：'utf-8' codec can't encode character '\ud83d' "
               ++ "in position 713: surrogates not allowed")
  /\ exit_code (main Sample.host Cases.surrogate_task) = 0%Z.
Proof. split; vm_compute; reflexivity. Qed.

(** ** Lists of strings *)

Lemma get_lists (key : string) (entries : list (string * pyval)) (l : list string) :
  Script.lists key entries l ->
  py_get (PyDict entries) key (Return (PyList [])) = Return (Report.str_list l).
Proof.
  intros [H|[H ->]]; cbn [py_get result_bind]; rewrite H; reflexivity.
Qed.

Lemma bullets_body (py : interpreter) (bullet : string -> string) (l : list string) :
  Report.bullets py bullet (Report.str_list l) = Return (Script.body bullet l).
Proof.
  destruct l as [|x l]; [reflexivity|].
  apply (bullets_str_list py bullet (x :: l)). discriminate.
Qed.

(** On a mapping that gives lists of strings, [handler] returns as soon
    as the probe gives a version. *)
Lemma render_lists (w : world) (entries : list (string * pyval))
    (files tasks : list string) (node : string) :
  Script.lists "current_workspace_files" entries files ->
  Script.lists "pending_tasks" entries tasks ->
  Report.node_version w = Return node ->
  Report.render w (PyDict entries)
  = Return (Report.assemble (Report.system_platform w) node
              (Report.memory_status (psutil_virtual_memory w)) (now_strftime w)
              (Script.body Report.file_bullet files)
              (Script.body Report.task_bullet tasks)).
Proof.
  intros Hfiles Htasks Hnode. unfold Report.render.
  rewrite (get_lists _ _ _ Hfiles), (get_lists _ _ _ Htasks), Hnode.
  cbn [result_bind]. rewrite !bullets_body. reflexivity.
Qed.

(** X4. When there is no [node] to run, the [except] clause of lines
    13-14 gives the version its fallback: on lists of strings
    [handler] returns, and the Node.js line reads 未安装. *)
Theorem missing_binary_gives_sentinel
    (w : world) (entries : list (string * pyval)) (files tasks : list string) (e : exn) :
  subprocess_run_node_v w = Raise e ->
  exn_type e = FileNotFoundError ->
  Script.lists "current_workspace_files" entries files ->
  Script.lists "pending_tasks" entries tasks ->
  handler w (PyDict entries)
  = Return (Report.assemble (Report.system_platform w) "未安装"
              (Report.memory_status (psutil_virtual_memory w)) (now_strftime w)
              (Script.body Report.file_bullet files)
              (Script.body Report.task_bullet tasks)).
Proof.
  intros Hrun Hty Hfiles Htasks. rewrite handler_render.
  apply render_lists; [exact Hfiles | exact Htasks|].
  unfold Report.node_version. rewrite Hrun. cbn [result_bind result_try].
  rewrite Hty. reflexivity.
Qed.

Lemma missing_binary_gives_sentinel_witness :
  let w := Sample.with_probe (Raise Sample.no_node) in
  let entries := [("pending_tasks", Report.str_list ["ship"])] in
  subprocess_run_node_v w = Raise Sample.no_node
  /\ exn_type Sample.no_node = FileNotFoundError
  /\ Script.lists "current_workspace_files" entries []
  /\ Script.lists "pending_tasks" entries ["ship"]
  /\ handler w (PyDict entries)
     = Return (Report.assemble (Report.system_platform w) "未安装"
                 (Report.memory_status (psutil_virtual_memory w)) (now_strftime w)
                 (Script.body Report.file_bullet [])
                 (Script.body Report.task_bullet ["ship"])).
Proof.
  intros w entries.
  assert (H1 : subprocess_run_node_v w = Raise Sample.no_node) by reflexivity.
  assert (H2 : exn_type Sample.no_node = FileNotFoundError) by reflexivity.
  assert (H3 : Script.lists "current_workspace_files" entries [])
    by (right; split; reflexivity).
  assert (H4 : Script.lists "pending_tasks" entries ["ship"]) by (left; reflexivity).
  split; [exact H1|]. split; [exact H2|]. split; [exact H3|]. split; [exact H4|].
  exact (missing_binary_gives_sentinel w entries [] ["ship"] Sample.no_node H1 H2 H3 H4).
Defined.

(** X5. When the probe returns, with whatever exit status, the version
    written is its standard output without the white space at both
    ends: [handler] does not look at [returncode]. *)
Theorem version_is_stripped_output
    (w : world) (entries : list (string * pyval)) (files tasks : list string)
    (rc : Z) (out : string) :
  subprocess_run_node_v w = Return {| returncode := rc; stdout := out |} ->
  Script.lists "current_workspace_files" entries files ->
  Script.lists "pending_tasks" entries tasks ->
  handler w (PyDict entries)
  = Return (Report.assemble (Report.system_platform w) (strip out)
              (Report.memory_status (psutil_virtual_memory w)) (now_strftime w)
              (Script.body Report.file_bullet files)
              (Script.body Report.task_bullet tasks)).
Proof.
  intros Hrun Hfiles Htasks. rewrite handler_render.
  apply render_lists; [exact Hfiles | exact Htasks|].
  unfold Report.node_version. now rewrite Hrun.
Qed.

Lemma version_is_stripped_output_witness :
  let w := Sample.with_probe Cases.failed_run in
  subprocess_run_node_v w
    = Return {| returncode := 1; stdout := " node: bad option" ++ nl |}
  /\ Script.lists "current_workspace_files" [] []
  /\ Script.lists "pending_tasks" [] []
  /\ handler w (PyDict [])
     = Return (Report.assemble (Report.system_platform w) "node: bad option"
                 (Report.memory_status (psutil_virtual_memory w)) (now_strftime w)
                 (Script.body Report.file_bullet [])
                 (Script.body Report.task_bullet [])).
Proof.
  intros w.
  assert (H1 : subprocess_run_node_v w
               = Return {| returncode := 1; stdout := " node: bad option" ++ nl |})
    by reflexivity.
  assert (H2 : Script.lists "current_workspace_files" [] []) by (right; split; reflexivity).
  assert (H3 : Script.lists "pending_tasks" [] []) by (right; split; reflexivity).
  split; [exact H1|]. split; [exact H2|]. split; [exact H3|].
  exact (version_is_stripped_output w [] [] [] 1 _ H1 H2 H3).
Defined.

(** X6. [handler] reads its mapping through the two keys only: two
    mappings that agree on them, whatever their other keys and the
    order of their entries, give the same result. *)
Theorem handler_reads_two_keys (w : world) (entries entries' : list (string * pyval)) :
  lookup "current_workspace_files" entries = lookup "current_workspace_files" entries' ->
  lookup "pending_tasks" entries = lookup "pending_tasks" entries' ->
  handler w (PyDict entries) = handler w (PyDict entries').
Proof.
  intros Hf Ht. rewrite !handler_render. unfold Report.render.
  cbn [py_get result_bind]. now rewrite Hf, Ht.
Qed.

Lemma handler_reads_two_keys_witness :
  let entries := [("pending_tasks", Report.str_list ["ship"]);
                  ("current_workspace_files", Report.str_list ["a.md"])] in
  let entries' := [("owner", PyStr "me");
                   ("current_workspace_files", Report.str_list ["a.md"]);
                   ("pending_tasks", Report.str_list ["ship"]);
                   ("done", PyInt 3)] in
  lookup "current_workspace_files" entries = lookup "current_workspace_files" entries'
  /\ lookup "pending_tasks" entries = lookup "pending_tasks" entries'
  /\ handler Sample.host (PyDict entries) = handler Sample.host (PyDict entries').
Proof.
  intros entries entries'.
  assert (H1 : lookup "current_workspace_files" entries
               = lookup "current_workspace_files" entries') by reflexivity.
  assert (H2 : lookup "pending_tasks" entries = lookup "pending_tasks" entries')
    by reflexivity.
  split; [exact H1|]. split; [exact H2|].
  exact (handler_reads_two_keys Sample.host entries entries' H1 H2).
Defined.


(** ** Values that are not lists *)

(** The two lookups on a mapping. *)
Lemma render_mapping (w : world) (entries : list (string * pyval)) :
  Report.render w (PyDict entries)
  = (let files := match lookup "current_workspace_files" entries with
                  | Some v => v | None => PyList [] end in
     let tasks := match lookup "pending_tasks" entries with
                  | Some v => v | None => PyList [] end in
     result_bind (Report.node_version w) (fun node =>
     result_bind (Report.bullets (python w) Report.file_bullet files) (fun files_body =>
     result_bind (Report.bullets (python w) Report.task_bullet tasks) (fun tasks_body =>
     Return (Report.assemble (Report.system_platform w) node
               (Report.memory_status (psutil_virtual_memory w)) (now_strftime w)
               files_body tasks_body))))).
Proof. reflexivity. Qed.

Lemma bullets_false (py : interpreter) (bullet : string -> string) (v : pyval) :
  py_truthy v = false ->
  Report.bullets py bullet v = Report.bullets py bullet (PyList []).
Proof. intros H. unfold Report.bullets. now rewrite H. Qed.

(** The entries of a mapping after [d[key] = v]. *)
Lemma lookup_dict_set (k key : string) (v : pyval) (entries : list (string * pyval)) :
  lookup k (Json.dict_set key v entries)
  = if String.eqb key k then Some v else lookup k entries.
Proof.
  induction entries as [|[k0 x] rest IH]; cbn [Json.dict_set lookup]; [reflexivity|].
  destruct (String.eqb_spec k0 key) as [->|Hne]; cbn [lookup].
  - destruct (String.eqb key k); reflexivity.
  - rewrite IH. destruct (String.eqb_spec k0 k) as [->|Hk]; [|reflexivity].
    destruct (String.eqb_spec key k) as [->|_]; [contradiction | reflexivity].
Qed.

(** Putting under [key] an object that the loops treat as the one
    that is there changes nothing. *)
Lemma render_dict_set (w : world) (entries : list (string * pyval))
    (key : string) (v v' : pyval) :
  lookup key entries = Some v ->
  (forall bullet, Report.bullets (python w) bullet v
                  = Report.bullets (python w) bullet v') ->
  Report.render w (PyDict entries)
  = Report.render w (PyDict (Json.dict_set key v' entries)).
Proof.
  intros Hlookup Hb. rewrite !render_mapping, !lookup_dict_set.
  destruct (String.eqb key "current_workspace_files") eqn:Ef;
    destruct (String.eqb key "pending_tasks") eqn:Et;
    try (apply String.eqb_eq in Ef); try (apply String.eqb_eq in Et).
  - subst key. discriminate Et.
  - subst key. rewrite Hlookup. cbv zeta. now rewrite Hb.
  - subst key. rewrite Hlookup. cbv zeta. now rewrite Hb.
  - reflexivity.
Qed.

(** X7. A key that holds a false object ([null], [false], [0], an
    empty string, an empty object) counts as an empty list: the result
    is the one for the mapping where the key holds [[]]. *)
Theorem false_value_is_empty_list
    (w : world) (entries : list (string * pyval)) (key : string) (v : pyval) :
  lookup key entries = Some v ->
  py_truthy v = false ->
  handler w (PyDict entries)
  = handler w (PyDict (Json.dict_set key (PyList []) entries)).
Proof.
  intros Hlookup Hfalse. rewrite !handler_render.
  apply (render_dict_set w entries key v (PyList []) Hlookup).
  intros bullet. apply bullets_false, Hfalse.
Qed.

Lemma false_value_is_empty_list_witness :
  let entries := [("pending_tasks", PyNone)] in
  lookup "pending_tasks" entries = Some PyNone
  /\ py_truthy PyNone = false
  /\ handler Sample.host (PyDict entries)
     = handler Sample.host (PyDict [("pending_tasks", PyList [])]).
Proof.
  intros entries.
  assert (H1 : lookup "pending_tasks" entries = Some PyNone) by reflexivity.
  assert (H2 : py_truthy PyNone = false) by reflexivity.
  split; [exact H1|]. split; [exact H2|].
  exact (false_value_is_empty_list Sample.host entries "pending_tasks" PyNone H1 H2).
Defined.

(** X8. A true object that no loop can visit (a number other than 0,
    [true]) under [current_workspace_files] makes [handler] raise
    [TypeError] when the loop of line 53 starts, once the probe has
    given a version. *)
Theorem number_for_files_raises
    (w : world) (entries : list (string * pyval)) (v : pyval) (node : string) :
  lookup "current_workspace_files" entries = Some v ->
  py_truthy v = true ->
  Script.not_iterable v = true ->
  Report.node_version w = Return node ->
  handler w (PyDict entries)
  = Raise {| exn_type := TypeError;
             exn_text := "'" ++ type_name v ++ "' object is not iterable" |}.
Proof.
  intros Hlookup Htrue Hnot Hnode. rewrite handler_render, render_mapping.
  rewrite Hlookup, Hnode. cbv zeta. cbn [result_bind]. unfold Report.bullets at 1.
  rewrite Htrue. destruct v; try discriminate Hnot; reflexivity.
Qed.

Lemma number_for_files_raises_witness :
  let entries := [("current_workspace_files", PyInt 3)] in
  lookup "current_workspace_files" entries = Some (PyInt 3)
  /\ py_truthy (PyInt 3) = true
  /\ Script.not_iterable (PyInt 3) = true
  /\ Report.node_version Sample.host = Return "v18.17.0"
  /\ handler Sample.host (PyDict entries)
     = Raise {| exn_type := TypeError; exn_text := "'int' object is not iterable" |}.
Proof.
  intros entries.
  assert (H1 : lookup "current_workspace_files" entries = Some (PyInt 3)) by reflexivity.
  assert (H2 : py_truthy (PyInt 3) = true) by reflexivity.
  assert (H3 : Script.not_iterable (PyInt 3) = true) by reflexivity.
  assert (H4 : Report.node_version Sample.host = Return "v18.17.0")
    by (vm_compute; reflexivity).
  split; [exact H1|]. split; [exact H2|]. split; [exact H3|]. split; [exact H4|].
  exact (number_for_files_raises Sample.host entries (PyInt 3) "v18.17.0" H1 H2 H3 H4).
Defined.

(** X9. A string in the place of a list is listed character by
    character: the result is the one for the mapping where the key
    holds the list of its characters. *)
Theorem string_is_listed_by_character
    (w : world) (entries : list (string * pyval)) (key s : string) :
  lookup key entries = Some (PyStr s) ->
  handler w (PyDict entries)
  = handler w (PyDict (Json.dict_set key (Report.str_list (chars s)) entries)).
Proof.
  intros Hlookup. rewrite !handler_render.
  apply (render_dict_set w entries key (PyStr s) _ Hlookup).
  intros bullet. unfold Report.bullets, Report.str_list.
  destruct s as [|c s]; [reflexivity|].
  cbn [py_truthy String.eqb negb py_iter].
  unfold chars. cbn [String.length chars_fuel].
  destruct (take_continuation s) as [k r]. reflexivity.
Qed.

Lemma string_is_listed_by_character_witness :
  let entries := [("current_workspace_files", PyStr "a.md")] in
  lookup "current_workspace_files" entries = Some (PyStr "a.md")
  /\ handler Sample.host (PyDict entries)
     = handler Sample.host
         (PyDict [("current_workspace_files", Report.str_list ["a"; "."; "m"; "d"])]).
Proof.
  intros entries.
  assert (H : lookup "current_workspace_files" entries = Some (PyStr "a.md"))
    by reflexivity.
  split; [exact H|].
  exact (string_is_listed_by_character Sample.host entries _ "a.md" H).
Defined.


(** ** The pending tasks *)

Lemma task_bullet_line (task : string) :
  Report.task_bullet task = ("- " ++ task) ++ nl.
Proof. unfold Report.task_bullet. now rewrite append_assoc. Qed.

Lemma lines_task_bullets (tasks : list string) (rest : string) :
  Forall (fun task => one_line task = true) tasks ->
  lines (join (map Report.task_bullet tasks) ++ rest)
  = List.app (map (fun task => "- " ++ task) tasks) (lines rest).
Proof.
  induction 1 as [|task tasks Htask _ IH]; [reflexivity|].
  cbn [map]. rewrite join_cons, task_bullet_line.
  rewrite (append_assoc (_ ++ nl)), (append_assoc _ nl).
  rewrite lines_line.
  - rewrite IH. reflexivity.
  - apply (one_line_append "- "); [reflexivity | exact Htask].
Qed.

Lemma filter_task_bullets (tasks : list string) :
  filter (String.prefix "- ") (map (fun task => "- " ++ task) tasks)
  = map (fun task => "- " ++ task) tasks.
Proof.
  induction tasks as [|task tasks IH]; [reflexivity|].
  cbn [map filter]. replace (String.prefix "- " ("- " ++ task)) with true.
  - now rewrite IH.
  - cbn. destruct task; reflexivity.
Qed.

(** X10. For a non-empty list of [N] tasks none of which holds a line
    feed, the tasks section, which stands between the experience list
    and the closing words, has exactly [N] bullet lines: the tasks,
    each after [- ], in the order of the list. *)
Theorem pending_tasks_bullets
    (w : world) (entries : list (string * pyval)) (tasks : list string)
    (report : string) :
  tasks <> [] ->
  Forall (fun task => one_line task = true) tasks ->
  lookup "pending_tasks" entries = Some (Report.str_list tasks) ->
  handler w (PyDict entries) = Return report ->
  exists before section,
    report = before ++ Report.experience ++ section ++ Report.closing
    /\ section = Report.tasks_section (join (map Report.task_bullet tasks))
    /\ Report.bullet_lines section = map (fun task => "- " ++ task) tasks
    /\ List.length (Report.bullet_lines section) = List.length tasks.
Proof.
  intros Hne Hlines Hlookup H.
  destruct (handler_returns _ _ _ H)
    as (fv & tv & node & fb & tb & _ & Ht & _ & _ & Htb & ->).
  cbn [py_get result_bind] in Ht. rewrite Hlookup in Ht. injection Ht as <-.
  rewrite (bullets_str_list _ _ _ Hne) in Htb. injection Htb as <-.
  exists (Report.opening (Report.system_platform w) node
          ++ Report.memory_line (Report.memory_status (psutil_virtual_memory w))
          ++ Report.time_line (now_strftime w)
          ++ Report.capabilities ++ Report.files_section fb),
         (Report.tasks_section (join (map Report.task_bullet tasks))).
  split; [|split; [reflexivity|]].
  - unfold Report.assemble. reassoc. reflexivity.
  - assert (Hb : Report.bullet_lines
                   (Report.tasks_section (join (map Report.task_bullet tasks)))
                 = map (fun task => "- " ++ task) tasks).
    { unfold Report.bullet_lines, Report.tasks_section.
      rewrite lines_line by reflexivity.
      rewrite <- (append_nil_r (join _)), lines_task_bullets by exact Hlines.
      cbn [filter].
      replace (String.prefix "- " "## 🎯 待办事项") with false by reflexivity.
      rewrite filter_app, filter_task_bullets. cbn. now rewrite app_nil_r. }
    rewrite Hb, length_map. split; reflexivity.
Qed.

Lemma pending_tasks_bullets_witness :
  let tasks := ["write tests"; "ship"] in
  tasks <> []
  /\ Forall (fun task => one_line task = true) tasks
  /\ lookup "pending_tasks" [("pending_tasks", Report.str_list tasks)]
     = Some (Report.str_list tasks)
  /\ handler Sample.host Cases.two_tasks = Return Cases.two_tasks_report
  /\ exists before section,
      Cases.two_tasks_report = before ++ Report.experience ++ section ++ Report.closing
      /\ section = Report.tasks_section (join (map Report.task_bullet tasks))
      /\ Report.bullet_lines section = ["- write tests"; "- ship"]
      /\ List.length (Report.bullet_lines section) = 2%nat.
Proof.
  intros tasks.
  assert (H1 : tasks <> []) by discriminate.
  assert (H2 : Forall (fun task => one_line task = true) tasks) by (repeat constructor).
  assert (H3 : lookup "pending_tasks" [("pending_tasks", Report.str_list tasks)]
               = Some (Report.str_list tasks)) by reflexivity.
  assert (H4 : handler Sample.host Cases.two_tasks = Return Cases.two_tasks_report)
    by (vm_compute; reflexivity).
  split; [exact H1|]. split; [exact H2|]. split; [exact H3|]. split; [exact H4|].
  exact (pending_tasks_bullets Sample.host _ tasks _ H1 H2 H3 H4).
Defined.

(** ** A probe that raises, seen from the script *)

(** X11. When the probe raises an exception that the [except] clause
    of line 13 does not list ([TimeoutExpired], [PermissionError]) and
    the input is an object, the [try] of lines 85-90 catches it: the
    run ends with status 1, nothing on standard output and the message
    of line 89 around the text of the exception. *)
Theorem probe_failure_ends_run
    (w : world) (stdin : string) (entries : list (string * pyval)) (e : exn) :
  psutil_importable w = true ->
  Script.input w stdin = Some (PyDict entries) ->
  subprocess_run_node_v w = Raise e ->
  existsb (issubclass (exn_type e)) [CalledProcessError; FileNotFoundError; TimeoutError]
    = false ->
  issubclass (exn_type e) Exception = true ->
  main w stdin
  = {| to_stdout := EmptyString;
       to_stderr := [Printed ("生成状态报告失败：" ++ exn_text e ++ nl)];
       exit_code := 1 |}.
Proof.
  intros Himport Hinput Hrun Hout Hexn.
  rewrite (main_steps w stdin _ Himport Hinput). unfold Script.report_or_fail.
  rewrite handler_render. unfold Report.render. cbn [py_get result_bind].
  unfold Report.node_version. rewrite Hrun. cbn [result_bind result_try].
  rewrite Hout. cbn [result_bind]. rewrite Hexn.
  unfold fail_with. now rewrite append_assoc.
Qed.

Lemma probe_failure_ends_run_witness :
  let w := Sample.with_probe (Raise Sample.timed_out) in
  psutil_importable w = true
  /\ Script.input w "{}" = Some (PyDict [])
  /\ subprocess_run_node_v w = Raise Sample.timed_out
  /\ existsb (issubclass (exn_type Sample.timed_out))
       [CalledProcessError; FileNotFoundError; TimeoutError] = false
  /\ issubclass (exn_type Sample.timed_out) Exception = true
  /\ main w "{}"
     = {| to_stdout := EmptyString;
          to_stderr :=
            [Printed ("生成状态报告失败：Command '['node', '-v']' timed out after 5 seconds"
                      ++ nl)];
          exit_code := 1 |}.
Proof.
  intros w.
  assert (H1 : psutil_importable w = true) by reflexivity.
  assert (H2 : Script.input w "{}" = Some (PyDict [])) by (vm_compute; reflexivity).
  assert (H3 : subprocess_run_node_v w = Raise Sample.timed_out) by reflexivity.
  assert (H4 : existsb (issubclass (exn_type Sample.timed_out))
                 [CalledProcessError; FileNotFoundError; TimeoutError] = false)
    by reflexivity.
  assert (H5 : issubclass (exn_type Sample.timed_out) Exception = true) by reflexivity.
  split; [exact H1|]. split; [exact H2|]. split; [exact H3|]. split; [exact H4|].
  split; [exact H5|].
  exact (probe_failure_ends_run w "{}" [] Sample.timed_out H1 H2 H3 H4 H5).
Defined.


(** ** Characters and white space *)

Module TextFacts.

Lemma character_item (ch : string) : Script.character ch = true -> Script.item ch = true.
Proof.
  destruct ch as [|c k]; cbn; [discriminate|]. intros H.
  now apply andb_prop in H as [_ H].
Qed.

Lemma take_continuation_spec (s : string) :
  forall k r, take_continuation s = (k, r) ->
    s = k ++ r
    /\ forallb is_continuation (list_ascii_of_string k) = true
    /\ Script.starts_clean r = true.
Proof.
  induction s as [|c s IH]; intros k r H; cbn [take_continuation] in H.
  - injection H as <- <-. repeat split.
  - destruct (is_continuation c) eqn:Hc.
    + destruct (take_continuation s) as [k' r'] eqn:E. injection H as <- <-.
      destruct (IH _ _ eq_refl) as (-> & Hk & Hr). cbn. rewrite Hc. repeat split; assumption.
    + injection H as <- <-. cbn. rewrite Hc. repeat split.
Qed.

Lemma take_continuation_append (k t : string) :
  forallb is_continuation (list_ascii_of_string k) = true ->
  Script.starts_clean t = true ->
  take_continuation (k ++ t) = (k, t).
Proof.
  induction k as [|c k IH]; cbn; intros Hk Ht.
  - destruct t as [|c t]; [reflexivity|]. cbn in Ht |- *.
    apply negb_true_iff in Ht. now rewrite Ht.
  - apply andb_prop in Hk as [Hc Hk]. rewrite Hc, (IH Hk Ht). reflexivity.
Qed.

(** The items of [chars]: all but the first are characters, and so is
    the first when the text starts clean. *)
Lemma chars_fuel_items (fuel : nat) :
  forall s,
    Forall (fun ch => Script.item ch = true) (chars_fuel fuel s)
    /\ Forall (fun ch => Script.character ch = true) (tl (chars_fuel fuel s))
    /\ (Script.starts_clean s = true ->
        Forall (fun ch => Script.character ch = true) (chars_fuel fuel s)).
Proof.
  induction fuel as [|fuel IH]; intros s; [cbn; repeat split; constructor|].
  destruct s as [|c s]; [cbn; repeat split; constructor|].
  cbn [chars_fuel]. destruct (take_continuation s) as [k r] eqn:E.
  destruct (take_continuation_spec s k r E) as (_ & Hk & Hr).
  destruct (IH r) as (Hitems & _ & Hclean). specialize (Hclean Hr).
  cbn [tl]. repeat split.
  - constructor; [exact Hk | exact Hitems].
  - exact Hclean.
  - intros Hc. constructor; [|exact Hclean]. cbn in Hc |- *. now rewrite Hc, Hk.
Qed.

Lemma join_starts_clean (l : list string) :
  Forall (fun ch => Script.character ch = true) l ->
  Script.starts_clean (join l) = true.
Proof.
  intros H. destruct H as [|ch l Hch _]; [reflexivity|].
  rewrite join_cons. destruct ch as [|c k]; [discriminate|].
  cbn in Hch |- *. now apply andb_prop in Hch as [Hc _].
Qed.

Lemma join_length (l : list string) (x : string) :
  In x l -> (String.length x <= String.length (join l))%nat.
Proof.
  induction l as [|y l IH]; intros Hin; [destruct Hin|].
  rewrite join_cons.
  assert (Hlen : forall a b, String.length (a ++ b) = (String.length a + String.length b)%nat)
    by (induction a; cbn; intros; [reflexivity | now rewrite IHa]).
  rewrite Hlen. destruct Hin as [->|Hin]; [lia|]. specialize (IH Hin). lia.
Qed.

(** Round trip: the characters of the text made of [l] are [l]. *)
Lemma chars_join (l : list string) :
  Forall (fun ch => Script.item ch = true) l ->
  Forall (fun ch => Script.character ch = true) (tl l) ->
  chars (join l) = l.
Proof.
  induction l as [|ch l IH]; intros Hitems Htail; [reflexivity|].
  inversion Hitems as [|? ? Hch Hrest]; subst. cbn [tl] in Htail.
  destruct ch as [|c k]; [discriminate|]. cbn in Hch.
  rewrite join_cons. unfold chars. cbn [append String.length chars_fuel].
  rewrite (take_continuation_append k (join l) Hch (join_starts_clean l Htail)).
  f_equal. rewrite chars_fuel_is_enough.
  - apply IH.
    + eapply Forall_impl; [|exact Htail]. intros a. apply character_item.
    + destruct Htail; [constructor | assumption].
  - clear. induction k as [|c k IHk]; cbn; lia.
Qed.

(** And back: the text made of its characters is the text. *)
Lemma join_chars_fuel (fuel : nat) :
  forall s, (String.length s <= fuel)%nat -> join (chars_fuel fuel s) = s.
Proof.
  induction fuel as [|fuel IH]; intros s Hs.
  - destruct s; [reflexivity | cbn in Hs; lia].
  - destruct s as [|c s]; [reflexivity|]. cbn [chars_fuel].
    pose proof (take_continuation_length s) as Hlen.
    destruct (take_continuation s) as [k r] eqn:E.
    destruct (take_continuation_spec s k r E) as (-> & _ & _).
    rewrite join_cons, IH; [reflexivity|]. cbn [snd String.length] in *. lia.
Qed.

Lemma join_chars (s : string) : join (chars s) = s.
Proof. apply join_chars_fuel. unfold chars. lia. Qed.

Lemma drop_spaces_suffix (l : list string) :
  exists dropped, l = (dropped ++ drop_spaces l)%list
                  /\ forallb is_space dropped = true.
Proof.
  induction l as [|ch l (d & E & F)]; [exists []; split; reflexivity|].
  cbn [drop_spaces]. destruct (is_space ch) eqn:Hch.
  - exists (ch :: d). cbn. rewrite Hch, F. split; [now f_equal | reflexivity].
  - exists []. split; reflexivity.
Qed.

Lemma drop_spaces_head (l : list string) :
  match drop_spaces l with
  | ch :: _ => is_space ch = false
  | [] => True
  end.
Proof.
  induction l as [|ch l IH]; [exact I|]. cbn [drop_spaces].
  destruct (is_space ch) eqn:Hch; [exact IH | exact Hch].
Qed.

Lemma kept_infix (s : string) :
  exists before after,
    chars s = (before ++ Script.kept s ++ after)%list
    /\ forallb is_space before = true /\ forallb is_space after = true.
Proof.
  unfold Script.kept. destruct (drop_spaces_suffix (chars s)) as (before & E1 & F1).
  destruct (drop_spaces_suffix (rev (drop_spaces (chars s)))) as (d & E2 & F2).
  exists before, (rev d).
  assert (Em : drop_spaces (chars s)
               = (rev (drop_spaces (rev (drop_spaces (chars s)))) ++ rev d)%list).
  { rewrite <- rev_app_distr, <- E2. now rewrite rev_involutive. }
  repeat split; [|exact F1|].
  - rewrite <- Em. exact E1.
  - rewrite forallb_forall in F2 |- *. intros x Hx. apply F2, in_rev, Hx.
Qed.

Lemma kept_items (s : string) :
  Forall (fun ch => Script.item ch = true) (Script.kept s)
  /\ Forall (fun ch => Script.character ch = true) (tl (Script.kept s)).
Proof.
  destruct (kept_infix s) as (before & after & E & _ & _).
  destruct (chars_fuel_items (String.length s) s) as (Hitems & Htail & _).
  fold (chars s) in Hitems, Htail. rewrite E in Hitems, Htail.
  apply Forall_app in Hitems as [_ Hitems]. apply Forall_app in Hitems as [Hitems _].
  split; [exact Hitems|].
  destruct before as [|b before].
  - cbn [app] in Htail. destruct (Script.kept s) as [|x l]; [constructor|].
    cbn [tl app] in Htail |- *. now apply Forall_app in Htail as [Htail _].
  - cbn [app tl] in Htail. apply Forall_app in Htail as [_ Htail].
    apply Forall_app in Htail as [Htail _].
    destruct (Script.kept s); [constructor | now inversion Htail].
Qed.

Lemma chars_strip (s : string) : chars (strip s) = Script.kept s.
Proof. apply chars_join; apply kept_items. Qed.

Lemma kept_ends (s : string) :
  match Script.kept s with ch :: _ => is_space ch = false | [] => True end
  /\ match rev (Script.kept s) with ch :: _ => is_space ch = false | [] => True end.
Proof.
  unfold Script.kept. split.
  - pose proof (drop_spaces_head (chars s)) as Hhead.
    destruct (drop_spaces_suffix (rev (drop_spaces (chars s)))) as (d & E & F).
    pose proof (drop_spaces_head (rev (drop_spaces (chars s)))) as Hlast.
    destruct (drop_spaces (rev (drop_spaces (chars s)))) as [|y m] eqn:Em; [exact I|].
    assert (Hrev : drop_spaces (chars s) = (rev (y :: m) ++ rev d)%list).
    { rewrite <- (rev_involutive (drop_spaces (chars s))), E, rev_app_distr.
      reflexivity. }
    destruct (rev (y :: m)) as [|z n] eqn:En.
    + apply (f_equal (@List.length string)) in En. rewrite length_rev in En. discriminate.
    + rewrite Hrev in Hhead. exact Hhead.
  - rewrite rev_involutive. apply drop_spaces_head.
Qed.

End TextFacts.

(** X12. The decoder is called exactly on the inputs that are not
    blank: a blank input is the empty object, and any other is what
    [json.loads] makes of its stripped text. *)
Theorem decoder_called_iff_not_blank (w : world) (stdin : string) :
  Script.input w stdin
  = if blank stdin then Some (PyDict []) else Json.loads (python w) (strip stdin).
Proof.
  unfold Script.input. destruct (blank stdin) eqn:Hblank.
  - now rewrite (strip_blank stdin Hblank).
  - destruct (strip stdin) as [|c raw] eqn:Hs; [|reflexivity]. exfalso.
    pose proof (TextFacts.chars_strip stdin) as Hc. rewrite Hs in Hc.
    destruct (TextFacts.kept_infix stdin) as (before & after & E & Fb & Fa).
    rewrite <- Hc in E. cbn in E. unfold blank in Hblank.
    rewrite E, forallb_app, Fb, Fa in Hblank. discriminate.
Qed.

(** [strip] leaves no white space at either end. *)
Lemma strip_trimmed (s : string) :
  Script.starts_with_space (strip s) = false
  /\ Script.ends_with_space (strip s) = false.
Proof.
  unfold Script.starts_with_space, Script.ends_with_space.
  rewrite TextFacts.chars_strip.
  destruct (TextFacts.kept_ends s) as [Hhead Hlast]. split.
  - destruct (Script.kept s); [reflexivity | exact Hhead].
  - destruct (rev (Script.kept s)); [reflexivity | exact Hlast].
Qed.

(** X13. The version written on the Node.js line, which is the one
    lines 11-14 compute, never has white space at either end,
    whatever the probe printed: it is the stripped output of the
    probe or the fallback. *)
Theorem version_is_trimmed (w : world) (args : pyval) (report : string) :
  handler w args = Return report ->
  exists node rest,
    Report.node_version w = Return node
    /\ report = Report.opening (Report.system_platform w) node ++ rest
    /\ Script.starts_with_space node = false
    /\ Script.ends_with_space node = false.
Proof.
  intros H.
  destruct (handler_returns _ _ _ H)
    as (files & tasks & node & fb & tb & _ & _ & Hnode & _ & _ & ->).
  exists node. eexists. split; [exact Hnode|].
  split; [unfold Report.assemble; reflexivity|].
  unfold Report.node_version in Hnode.
  destruct (subprocess_run_node_v w) as [cp|e]; cbn [result_bind result_try] in Hnode.
  - injection Hnode as <-. apply strip_trimmed.
  - destruct (existsb _ _); [|discriminate]. injection Hnode as <-.
    split; vm_compute; reflexivity.
Qed.

Lemma version_is_trimmed_witness :
  let w := Sample.with_probe Cases.failed_run in
  handler w (PyDict []) = Return (Sample.returned (handler w (PyDict [])))
  /\ exists node rest,
      Report.node_version w = Return node
      /\ Sample.returned (handler w (PyDict []))
         = Report.opening (Report.system_platform w) node ++ rest
      /\ Script.starts_with_space node = false
      /\ Script.ends_with_space node = false.
Proof.
  intros w.
  assert (H : handler w (PyDict []) = Return (Sample.returned (handler w (PyDict []))))
    by (vm_compute; reflexivity).
  split; [exact H|].
  exact (version_is_trimmed w (PyDict []) _ H).
Defined.

(** ** One object under two keys *)

Lemma shared_store_holds :
  Heap.holds Sample.shared_store (Heap.VRef 0) Cases.shared_tree.
Proof.
  assert (Hlist : Heap.holds Sample.shared_store (Heap.VRef 1)
                    (PyList [PyStr "notes.md"; PyStr "todo.md"])).
  { eapply Heap.holds_list; [cbn; lia | reflexivity |].
    repeat constructor. }
  eapply Heap.holds_dict; [cbn; lia | reflexivity |].
  repeat constructor; exact Hlist.
Qed.

Lemma store_handler_refines_witness :
  Heap.holds Sample.shared_store (Heap.VRef 0) Cases.shared_tree
  /\ exists fresh,
      Heap.run_handler Sample.host (Heap.VRef 0) Sample.shared_store
      = ((Sample.shared_store ++ fresh)%list, handler Sample.host Cases.shared_tree)
      /\ Forall (fun o => o = Heap.OList []) fresh.
Proof.
  split; [exact shared_store_holds|].
  exact (store_handler_refines Sample.host (Heap.VRef 0) Cases.shared_tree
           Sample.shared_store shared_store_holds).
Defined.

(** ** The report, line by line *)

Module LineFacts.

Lemma lines_acc_nonempty (s cur : string) : lines_acc cur s <> [].
Proof.
  revert cur. induction s as [|c s IH]; intros cur; cbn [lines_acc]; [discriminate|].
  destruct (nat_of_ascii c =? 10)%nat; [discriminate | apply IH].
Qed.

(** The lines of two texts put end to end: the last line of the first
    goes on with the second. *)
Lemma lines_acc_append (s rest cur : string) :
  lines_acc cur (s ++ rest)
  = (removelast (lines_acc cur s)
     ++ lines_acc (last (lines_acc cur s) EmptyString) rest)%list.
Proof.
  revert cur. induction s as [|c s IH]; intros cur; [reflexivity|].
  cbn [append lines_acc]. destruct (nat_of_ascii c =? 10)%nat; [|apply IH].
  rewrite IH. pose proof (lines_acc_nonempty s EmptyString) as Hne.
  destruct (lines_acc EmptyString s) as [|x l]; [contradiction | reflexivity].
Qed.

Lemma lines_block (s rest : string) :
  last (lines s) EmptyString = EmptyString ->
  lines (s ++ rest) = (Script.block s ++ lines rest)%list.
Proof.
  unfold lines, Script.block. intros H. now rewrite lines_acc_append, H.
Qed.

Lemma lines_nl (rest : string) : lines (nl ++ rest) = EmptyString :: lines rest.
Proof. reflexivity. Qed.

Lemma lines_line2 (a b rest : string) :
  one_line a = true -> one_line b = true ->
  lines (a ++ b ++ nl ++ rest) = (a ++ b) :: lines rest.
Proof.
  intros Ha Hb. rewrite <- (append_assoc a b). apply lines_line.
  now apply one_line_append.
Qed.

(** A number in decimal has no line feed. *)
Lemma one_line_uint (d : Decimal.uint) : one_line (NilEmpty.string_of_uint d) = true.
Proof. induction d; cbn; auto. Qed.

Lemma one_line_nilzero (d : Decimal.uint) : one_line (NilZero.string_of_uint d) = true.
Proof.
  destruct d; first [reflexivity | apply (one_line_uint (Decimal.D0 d))
    | apply (one_line_uint (Decimal.D1 d)) | apply (one_line_uint (Decimal.D2 d))
    | apply (one_line_uint (Decimal.D3 d)) | apply (one_line_uint (Decimal.D4 d))
    | apply (one_line_uint (Decimal.D5 d)) | apply (one_line_uint (Decimal.D6 d))
    | apply (one_line_uint (Decimal.D7 d)) | apply (one_line_uint (Decimal.D8 d))
    | apply (one_line_uint (Decimal.D9 d))].
Qed.

Lemma one_line_str_int (z : Z) : one_line (str_int z) = true.
Proof.
  unfold str_int, NilZero.string_of_int.
  destruct (Z.to_int z) as [d|d]; [apply one_line_nilzero|].
  apply (one_line_append "-"); [reflexivity | apply one_line_nilzero].
Qed.

Lemma one_line_memory_status (vm : svmem) : one_line (Report.memory_status vm) = true.
Proof.
  unfold Report.memory_status.
  repeat (apply one_line_append; [first [reflexivity | apply one_line_str_int]|]).
  reflexivity.
Qed.

Lemma lines_opening (platform node rest : string) :
  one_line platform = true -> one_line node = true ->
  lines (Report.opening platform node ++ rest)
  = "# 🤖 WuXing-Agent 自我状态报告" :: EmptyString :: "## 📊 实时运行环境"
    :: ("- **系统平台**: " ++ platform) :: ("- **Node.js版本**: " ++ node)
    :: lines rest.
Proof.
  intros Hp Hn. unfold Report.opening. reassoc.
  rewrite lines_line by reflexivity. rewrite lines_nl.
  rewrite lines_line by reflexivity.
  rewrite (lines_line2 _ platform) by (reflexivity || exact Hp).
  rewrite (lines_line2 _ node) by (reflexivity || exact Hn).
  reflexivity.
Qed.

Lemma lines_memory_line (status rest : string) :
  one_line status = true ->
  lines (Report.memory_line status ++ rest)
  = ("- **内存状态**: " ++ status) :: lines rest.
Proof.
  intros Hs. unfold Report.memory_line. reassoc.
  now rewrite (lines_line2 _ status) by (reflexivity || exact Hs).
Qed.

Lemma lines_time_line (current_time rest : string) :
  one_line current_time = true ->
  lines (Report.time_line current_time ++ rest)
  = ("- **当前时间**: " ++ current_time) :: EmptyString :: lines rest.
Proof.
  intros Ht. unfold Report.time_line. reassoc.
  rewrite (lines_line2 _ current_time) by (reflexivity || exact Ht).
  now rewrite lines_nl.
Qed.

Lemma lines_files_section (files : list string) (rest : string) :
  Forall (fun path => one_line path = true) files ->
  lines (Report.files_section (Script.body Report.file_bullet files) ++ rest)
  = ("## 📂 当前工作区文件"
     :: Script.listing (fun path => ("- `" ++ path ++ "`")%string) files
     ++ EmptyString :: lines rest)%list.
Proof.
  intros Hfiles. unfold Report.files_section. reassoc.
  rewrite lines_line by reflexivity. f_equal.
  destruct files as [|path files].
  - unfold Script.body, Report.none_bullet. reassoc.
    rewrite lines_line by reflexivity. now rewrite lines_nl.
  - unfold Script.body, Script.listing.
    rewrite lines_file_bullets by exact Hfiles. now rewrite lines_nl.
Qed.

Lemma lines_tasks_section (tasks : list string) :
  Forall (fun task => one_line task = true) tasks ->
  lines (Report.tasks_section (Script.body Report.task_bullet tasks) ++ Report.closing)
  = ("## 🎯 待办事项"
     :: Script.listing (fun task => ("- " ++ task)%string) tasks
     ++ [EmptyString; "---"; "随时可以向我提出编程需求"])%list.
Proof.
  intros Htasks. unfold Report.tasks_section. reassoc.
  rewrite lines_line by reflexivity. f_equal.
  destruct tasks as [|task tasks].
  - unfold Script.body, Report.none_bullet. reassoc.
    now rewrite lines_line by reflexivity.
  - unfold Script.body, Script.listing.
    now rewrite lines_task_bullets by exact Htasks.
Qed.

Lemma listing_length (bullet : string -> string) (l : list string) :
  List.length (Script.listing bullet l) = Nat.max 1 (List.length l).
Proof. destruct l; cbn [Script.listing]; [reflexivity|]. now rewrite length_map. Qed.

Lemma capabilities_lines : List.length (Script.block Report.capabilities) = 17%nat.
Proof. vm_compute. reflexivity. Qed.

Lemma experience_lines : List.length (Script.block Report.experience) = 6%nat.
Proof. vm_compute. reflexivity. Qed.

End LineFacts.

(** X15. When the platform, the version, the time and every path and
    task are free of line feeds, the report is, line for line: the
    title and the four facts of the host, the fixed capabilities and
    workflow, the files heading and one bullet per path or the
    placeholder, the fixed experience list, the tasks heading and one
    bullet per task or the placeholder, and the closing words. It has
    37 lines besides the bullets. *)
Theorem report_line_by_line
    (w : world) (entries : list (string * pyval)) (files tasks : list string)
    (node : string) :
  Script.lists "current_workspace_files" entries files ->
  Script.lists "pending_tasks" entries tasks ->
  Report.node_version w = Return node ->
  one_line (Report.system_platform w) = true ->
  one_line node = true ->
  one_line (now_strftime w) = true ->
  Forall (fun path => one_line path = true) files ->
  Forall (fun task => one_line task = true) tasks ->
  exists report,
    handler w (PyDict entries) = Return report
    /\ lines report
       = Script.report_lines (Report.system_platform w) node
           (Report.memory_status (psutil_virtual_memory w)) (now_strftime w)
           files tasks
    /\ List.length (lines report)
       = (37 + Nat.max 1 (List.length files) + Nat.max 1 (List.length tasks))%nat.
Proof.
  intros Hfiles Htasks Hnode Hp Hn Ht Hpaths Hitems.
  eexists. split.
  { rewrite handler_render. apply (render_lists w entries files tasks node); assumption. }
  assert (E : lines (Report.assemble (Report.system_platform w) node
                       (Report.memory_status (psutil_virtual_memory w)) (now_strftime w)
                       (Script.body Report.file_bullet files)
                       (Script.body Report.task_bullet tasks))
              = Script.report_lines (Report.system_platform w) node
                  (Report.memory_status (psutil_virtual_memory w)) (now_strftime w)
                  files tasks).
  { unfold Report.assemble.
    rewrite (LineFacts.lines_opening _ _ _ Hp Hn).
    rewrite (LineFacts.lines_memory_line _ _ (LineFacts.one_line_memory_status _)).
    rewrite (LineFacts.lines_time_line _ _ Ht).
    rewrite (LineFacts.lines_block Report.capabilities) by (vm_compute; reflexivity).
    rewrite (LineFacts.lines_files_section _ _ Hpaths).
    rewrite (LineFacts.lines_block Report.experience) by (vm_compute; reflexivity).
    rewrite (LineFacts.lines_tasks_section _ Hitems).
    unfold Script.report_lines. cbn [List.app].
    reflexivity. }
  split; [exact E|]. rewrite E. unfold Script.report_lines.
  rewrite !length_app, !LineFacts.listing_length,
    LineFacts.capabilities_lines, LineFacts.experience_lines.
  cbn [List.length]. lia.
Qed.

Lemma report_line_by_line_witness :
  let entries := [("current_workspace_files", Report.str_list ["src/a.js"; "README.md"])] in
  Script.lists "current_workspace_files" entries ["src/a.js"; "README.md"]
  /\ Script.lists "pending_tasks" entries []
  /\ Report.node_version Sample.host = Return "v18.17.0"
  /\ one_line (Report.system_platform Sample.host) = true
  /\ one_line "v18.17.0" = true
  /\ one_line (now_strftime Sample.host) = true
  /\ Forall (fun path => one_line path = true) ["src/a.js"; "README.md"]
  /\ Forall (fun task => one_line task = true) []
  /\ exists report,
      handler Sample.host (PyDict entries) = Return report
      /\ lines report
         = Script.report_lines (Report.system_platform Sample.host) "v18.17.0"
             (Report.memory_status (psutil_virtual_memory Sample.host))
             (now_strftime Sample.host) ["src/a.js"; "README.md"] []
      /\ List.length (lines report) = 40%nat.
Proof.
  intros entries.
  assert (H1 : Script.lists "current_workspace_files" entries ["src/a.js"; "README.md"])
    by (left; reflexivity).
  assert (H2 : Script.lists "pending_tasks" entries []) by (right; split; reflexivity).
  assert (H3 : Report.node_version Sample.host = Return "v18.17.0")
    by (vm_compute; reflexivity).
  assert (H4 : one_line (Report.system_platform Sample.host) = true)
    by (vm_compute; reflexivity).
  assert (H5 : one_line "v18.17.0" = true) by reflexivity.
  assert (H6 : one_line (now_strftime Sample.host) = true) by (vm_compute; reflexivity).
  assert (H7 : Forall (fun path => one_line path = true) ["src/a.js"; "README.md"])
    by (repeat constructor).
  assert (H8 : Forall (fun task => one_line task = true) []) by constructor.
  split; [exact H1|]. split; [exact H2|]. split; [exact H3|]. split; [exact H4|].
  split; [exact H5|]. split; [exact H6|]. split; [exact H7|]. split; [exact H8|].
  exact (report_line_by_line Sample.host entries _ _ _ H1 H2 H3 H4 H5 H6 H7 H8).
Defined.
